(** * download-rds-logs.py: the retrieval loops of [_main]

    A shallow embedding of [src/download-rds-logs.py].  The script lists the
    log files of an RDS instance ([describe_db_log_files]), and fetches each
    one by marker-based pagination ([download_db_log_file_portion]) with an
    exponential back-off on failures and a shrinking line count on truncated
    portions.

    Conventions of the embedding.
    - The boto3 client is the environment: every call consumes the next entry
      of a reply script, [None] for a call that raises, [Some r] for a call
      that returns [r].  A run whose script is used up while a loop still
      wants a reply ends in the status [Starved]; the script is the fuel of
      the model.
    - A response is a Python dict: each key is present or absent, and
      ['LogFileData'] may be present with the value [None].
    - Log calls, sleeps, remote calls and file operations are recorded, in
      program order, in a trace of events.  A log message is kept in
      structured form (call site and arguments) instead of the formatted
      text.
    - Python integers are [Z].  [math.pow(2, sleepcount)] is the double
      2^sleepcount, which is exact for every [sleepcount] below 1024 (a run
      gets that far only after sleeping 2^1024 - 1 seconds); it is written
      as the integer [2 ^ sleepcount], and [time.sleep] is an event.
    - The guard [lines > args.lines * 0.1] multiplies in double precision
      and compares an integer with the double, which Python does exactly.
      It is written [args.lines < 10 * lines] ([above_floor]);
      [above_floor_double] is the guard in IEEE 754 arithmetic, and
      [above_floor_double_agrees] shows that the two give the same answer
      for every line count when [args.lines] is between -10000 and 10000.
    - The local file system is a finite map from paths to file contents;
      text is [string] (the script writes the [str] it receives to a file
      opened in binary mode, as Python 2 allows). *)

From Stdlib Require Import ZArith List String Ascii Bool Lia SpecFloat Sorted.
From stdpp Require Import gmap strings.
Import ListNotations.

Local Open Scope string_scope.
Local Open Scope list_scope.
Local Open Scope Z_scope.

(** ** Command line arguments (the namespace returned by [parse_args]) *)

Module Args.
Record t : Type := mk {
  instance : string;
  output_dir : string;
  (** [re.search(args.logfile_match, _)], when a pattern was given *)
  logfile_match : option (string -> bool);
  lines : Z;
  backoff : Z
}.
End Args.

(** ** Replies of the service *)

(** An entry of [response['DescribeDBLogFiles']]. *)
Record LogFile : Type := mkLogFile {
  LogFileName : string;
  Size : Z
}.

(** The dict returned by [download_db_log_file_portion]. *)
Record Portion : Type := mkPortion {
  (** absent, present with [None], or present with text *)
  LogFileData : option (option string);
  AdditionalDataPending : option bool;
  Marker : option string
}.

(** ** What a run does and how it ends *)

Inductive exn : Type :=
| KeyError (key : string)
| NameError (name : string).

Inductive level : Type := DEBUG | INFO | WARNING | ERROR.

(** One constructor per logging call of the script. *)
Inductive message : Type :=
| SleepDueToFailure (sleepcount sleeptime : Z)
| ErrorDescribing (instance : string)
| LogEntry (log : LogFile)
| Skipping (logfilename : string)
| ExistsSkipping (logfilename : string)
| SizeDoesNotMatch (logfilename : string)
| LocalAndExpectedSize (st_size expected : Z)
| Requesting (logfilename marker : string) (chunk : Z)
| PendingAndMarker (pending : bool) (marker : string)
| SegmentTruncated
| RetryingWith (lines : Z)
| NoLogFileData (logfilename : string)
| ResultEntry (pending : option bool) (marker : option string)
| TooManyErrors (logfilename : string).

Inductive event : Type :=
| Log (l : level) (m : message)
| Sleep (sleeptime : Z)
| DescribeDBLogFiles (DBInstanceIdentifier : string)
| DownloadDBLogFilePortion (DBInstanceIdentifier LogFileName Marker : string)
                           (NumberOfLines : Z)
| Remove (path : string)
| OpenWb (path : string)
| Write (path data : string).

Inductive status : Type :=
| Finished
| Raised (e : exn)
| Starved.

(** ** Strings *)

Definition newline : string := String (ascii_of_nat 10) EmptyString.

Definition truncation_notice : string :=
  "[Your log message was truncated]" +:+ newline.

(** [s.endswith(suffix)] *)
Definition endswith (s suffix : string) : bool :=
  let n := String.length s in
  let k := String.length suffix in
  (k <=? n)%nat && String.eqb (substring (n - k) k s) suffix.

(** [os.path.basename]: what follows the last slash. *)
Fixpoint basename (p : string) : string :=
  match p with
  | EmptyString => EmptyString
  | String c rest =>
      if Ascii.eqb c "/"%char then basename rest
      else if existsb (Ascii.eqb "/"%char) (list_ascii_of_string rest)
           then basename rest
           else p
  end.

(** [os.path.join] of two components. *)
Definition join (a b : string) : string :=
  if String.prefix "/" b then b
  else if (String.eqb a "" || endswith a "/") then a +:+ b
  else a +:+ "/" +:+ b.

(** ** The state of the pagination loop (the locals of lines 120-124) *)

Record Session : Type := mkSession {
  lines : Z;
  more_data : bool;
  marker : string;
  sleepcount : Z;
  chunk : Z;
  (** what has been written through the file object [f] *)
  f_contents : string
}.

Definition set_lines (v : Z) (s : Session) : Session :=
  mkSession v (more_data s) (marker s) (sleepcount s) (chunk s) (f_contents s).
Definition set_more_data (v : bool) (s : Session) : Session :=
  mkSession (lines s) v (marker s) (sleepcount s) (chunk s) (f_contents s).
Definition set_marker (v : string) (s : Session) : Session :=
  mkSession (lines s) (more_data s) v (sleepcount s) (chunk s) (f_contents s).
Definition set_sleepcount (v : Z) (s : Session) : Session :=
  mkSession (lines s) (more_data s) (marker s) v (chunk s) (f_contents s).
Definition set_chunk (v : Z) (s : Session) : Session :=
  mkSession (lines s) (more_data s) (marker s) (sleepcount s) v (f_contents s).
Definition f_write (data : string) (s : Session) : Session :=
  mkSession (lines s) (more_data s) (marker s) (sleepcount s) (chunk s)
            (f_contents s +:+ data).

(** [math.pow(2, sleepcount)] *)
Definition sleeptime_of (sleepcount : Z) : Z := 2 ^ sleepcount.

(** [lines > args.lines * 0.1] *)
Definition above_floor (args : Args.t) (lines : Z) : bool :=
  Args.lines args <? 10 * lines.

(** The guard of line 146 as Python computes it: [args.lines] converted to
    a double, multiplied by the double written [0.1], and the integer
    [lines] compared with the product without rounding. *)
Definition double_of_int (z : Z) : spec_float :=
  binary_normalize 53 1024 z 0 false.

Definition double_tenth : spec_float :=
  S754_finite false 7205759403792794 (-56).

(** [n > x] for an integer [n] and a double [x]. *)
Definition int_gt_double (n : Z) (x : spec_float) : bool :=
  match x with
  | S754_zero _ => 0 <? n
  | S754_finite s m e =>
      let v := if s then Zneg m else Zpos m in
      if 0 <=? e then v * 2 ^ e <? n else v <? n * 2 ^ (- e)
  | S754_infinity s => s
  | S754_nan => false
  end.

Definition above_floor_double (args : Args.t) (lines : Z) : bool :=
  int_gt_double lines
    (SFmul 53 1024 (double_of_int (Args.lines args)) double_tenth).

(** The integer part (rounded down) of a finite double. *)
Definition floor_double (x : spec_float) : option Z :=
  match x with
  | S754_zero _ => Some 0
  | S754_finite s m e =>
      let v := if s then Zneg m else Zpos m in
      Some (if 0 <=? e then v * 2 ^ e else v / 2 ^ (- e))
  | _ => None
  end.

(** The double product [L * 0.1] and the quotient [L / 10] have the same
    integer part. *)
Definition tenth_is_exact_enough (L : Z) : bool :=
  match floor_double (SFmul 53 1024 (double_of_int L) double_tenth) with
  | Some q => q =? L / 10
  | None => false
  end.

(** How one pass through the body of the [while] loop ends: by reaching its
    end or a [continue], or by an exception nobody catches. *)
Inductive flow : Type :=
| Next
| Uncaught (e : exn).

Section Download.

Variable args : Args.t.
Variable logfilename : string.
Variable destination : string.

(** Lines 126-133: the log line and the call. *)
Definition request (st : Session) : list event :=
  [ Log INFO (Requesting logfilename (marker st) (chunk st));
    DownloadDBLogFilePortion (Args.instance args) logfilename (marker st)
                             (lines st) ].

(** Lines 135-139: the [except] branch. *)
Definition on_failure (st : Session) : list event * Session * flow :=
  let sleeptime := sleeptime_of (sleepcount st) in
  ([ Log WARNING (SleepDueToFailure (sleepcount st) sleeptime);
     Sleep sleeptime ],
   set_sleepcount (sleepcount st + 1) st,
   Next).

(** Lines 155-160: the end of the body. *)
Definition advance (result : Portion) (st : Session)
  : list event * Session * flow :=
  let st := set_more_data
              (match AdditionalDataPending result with
               | Some pending => pending
               | None => false
               end) st in
  let st := match Marker result with
            | Some m => set_marker m st
            | None => st
            end in
  let st := set_chunk (chunk st + 1) st in
  match LogFileData result with
  | None => ([], st, Uncaught (KeyError "LogFileData"))
  | Some _ =>
      ([ Log DEBUG (ResultEntry (AdditionalDataPending result)
                                (Marker result)) ],
       st, Next)
  end.

(** Lines 140-160: the body after a call that returned [result]. *)
Definition on_result (result : Portion) (st : Session)
  : list event * Session * flow :=
  let st := set_sleepcount 0 st in
  match AdditionalDataPending result with
  | None => ([], st, Uncaught (KeyError "AdditionalDataPending"))
  | Some pending =>
  match Marker result with
  | None => ([], st, Uncaught (KeyError "Marker"))
  | Some m =>
      let shown := [ Log INFO (PendingAndMarker pending m) ] in
      match LogFileData result with
      | Some (Some data) =>
          if endswith data truncation_notice then
            if above_floor args (lines st) then
              let st := set_lines (lines st - 10) st in
              (shown ++ [ Log INFO SegmentTruncated;
                          Log INFO (RetryingWith (lines st)) ],
               st, Next)
            else
              let '(tr, st', fl) := advance result (f_write data st) in
              (shown ++ [ Log INFO SegmentTruncated;
                          Write destination data ] ++ tr, st', fl)
          else
            let '(tr, st', fl) := advance result (f_write data st) in
            (shown ++ [ Write destination data ] ++ tr, st', fl)
      | _ =>
          let '(tr, st', fl) := advance result st in
          (shown ++ [ Log ERROR (NoLogFileData logfilename) ] ++ tr,
           st', fl)
      end
  end
  end.

(** One pass through the body, once the call has been answered. *)
Definition iteration (reply : option Portion) (st : Session)
  : list event * Session * flow :=
  match reply with
  | None => on_failure st
  | Some result => on_result result st
  end.

(** Line 125: the loop condition. *)
Definition loop_condition (st : Session) : bool :=
  more_data st && (sleepcount st <? Args.backoff args).

(** Lines 125-160.  Returns the trace, the locals when the loop was left,
    how it was left and the replies not consumed. *)
Fixpoint download_loop (replies : list (option Portion)) (st : Session)
  : list event * Session * status * list (option Portion) :=
  if loop_condition st then
    match replies with
    | [] => (request st, st, Starved, [])
    | reply :: rest =>
        let '(tr, st', fl) := iteration reply st in
        match fl with
        | Next =>
            let '(tr', st'', s, rest') := download_loop rest st' in
            (request st ++ tr ++ tr', st'', s, rest')
        | Uncaught e => (request st ++ tr, st', Raised e, rest)
        end
    end
  else ([], st, Finished, replies).

End Download.

(** ** The listing call and the loop over the log files *)

Section Main.

Variable args : Args.t.

(** Lines 84-95: the [while] loop around [describe_db_log_files].  Returns
    the trace, [sleepcount] and the binding of [response] (if any) when the
    loop was left, how it was left and the replies not consumed. *)
Fixpoint describe_loop (replies : list (option (list LogFile)))
         (sleepcount : Z)
  : list event * Z * option (list LogFile) * status
    * list (option (list LogFile)) :=
  if sleepcount <? Args.backoff args then
    match replies with
    | [] =>
        ([ DescribeDBLogFiles (Args.instance args) ],
         sleepcount, None, Starved, [])
    | Some response :: rest =>
        ([ DescribeDBLogFiles (Args.instance args) ],
         sleepcount, Some response, Finished, rest)
    | None :: rest =>
        let sleeptime := sleeptime_of sleepcount in
        let '(tr, sleepcount', response, s, rest') :=
          describe_loop rest (sleepcount + 1) in
        ([ DescribeDBLogFiles (Args.instance args);
           Log WARNING (SleepDueToFailure sleepcount sleeptime);
           Sleep sleeptime ] ++ tr,
         sleepcount', response, s, rest')
    end
  else ([], sleepcount, None, Finished, replies).

(** Line 108. *)
Definition destination_of (log : LogFile) : string :=
  join (Args.output_dir args) (basename (LogFileName log)).

(** Line 104: the file is filtered out. *)
Definition filtered_out (logfilename : string) : bool :=
  match Args.logfile_match args with
  | Some search => negb (search logfilename)
  | None => false
  end.

(** Lines 102 and 120-124. *)
Definition initial_session : Session :=
  {| lines := Args.lines args; more_data := true; marker := "0";
     sleepcount := 0; chunk := 0; f_contents := "" |}.

(** Lines 120-163: the [with] block.  The file exists from [open] on and
    holds what was written when the block is left, whichever way. *)
Definition download (log : LogFile) (fs : gmap string string)
           (replies : list (option Portion))
  : list event * gmap string string * status * list (option Portion) :=
  let logfilename := LogFileName log in
  let destination := destination_of log in
  let '(tr, st, s, rest) :=
    download_loop args logfilename destination replies initial_session in
  let fs' := <[destination := f_contents st]> fs in
  match s with
  | Finished =>
      ([ OpenWb destination ] ++ tr ++
       (if sleepcount st =? Args.backoff args
        then [ Log ERROR (TooManyErrors logfilename) ] else []),
       fs', Finished, rest)
  | _ => ([ OpenWb destination ] ++ tr, fs', s, rest)
  end.

(** Lines 100-163: the body of the [for] loop; [Finished] stands for
    reaching its end or a [continue]. *)
Definition for_body (log : LogFile) (fs : gmap string string)
           (replies : list (option Portion))
  : list event * gmap string string * status * list (option Portion) :=
  let logfilename := LogFileName log in
  if filtered_out logfilename then
    ([ Log DEBUG (LogEntry log); Log INFO (Skipping logfilename) ],
     fs, Finished, replies)
  else
    let destination := destination_of log in
    match fs !! destination with
    | Some local =>
        let st_size := Z.of_nat (String.length local) in
        if st_size =? Size log then
          ([ Log DEBUG (LogEntry log);
             Log INFO (ExistsSkipping logfilename) ],
           fs, Finished, replies)
        else
          let '(tr, fs', s, rest) :=
            download log (delete destination fs) replies in
          ([ Log DEBUG (LogEntry log);
             Log INFO (SizeDoesNotMatch logfilename);
             Log INFO (LocalAndExpectedSize st_size (Size log));
             Remove destination ] ++ tr,
           fs', s, rest)
    | None =>
        let '(tr, fs', s, rest) := download log fs replies in
        ([ Log DEBUG (LogEntry log) ] ++ tr, fs', s, rest)
    end.

(** Lines 99-163. *)
Fixpoint for_logs (logs : list LogFile) (fs : gmap string string)
         (replies : list (option Portion))
  : list event * gmap string string * status * list (option Portion) :=
  match logs with
  | [] => ([], fs, Finished, replies)
  | log :: logs' =>
      let '(tr, fs', s, rest) := for_body log fs replies in
      match s with
      | Finished =>
          let '(tr', fs'', s', rest') := for_logs logs' fs' rest in
          (tr ++ tr', fs'', s', rest')
      | _ => (tr, fs', s, rest)
      end
  end.

(** Lines 83-163 of [_main], from a file system [fs] and the replies the
    two remote operations will give. *)
Definition _main (fs : gmap string string)
           (listings : list (option (list LogFile)))
           (portions : list (option Portion))
  : list event * gmap string string * status * list (option Portion) :=
  let '(tr, sleepcount, response, s, _) := describe_loop listings 0 in
  match s with
  | Finished =>
      if sleepcount =? Args.backoff args then
        (tr ++ [ Log ERROR (ErrorDescribing (Args.instance args)) ],
         fs, Finished, portions)
      else
        match response with
        | None => (tr, fs, Raised (NameError "response"), portions)
        | Some logs =>
            let '(tr', fs', s', rest) := for_logs logs fs portions in
            (tr ++ tr', fs', s', rest)
        end
  | _ => (tr, fs, s, portions)
  end.

End Main.

(** ** Reading a trace *)

Definition sleep_of (e : event) : option Z :=
  match e with Sleep t => Some t | _ => None end.

Definition requested_of (e : event) : option (string * Z) :=
  match e with
  | DownloadDBLogFilePortion _ _ m n => Some (m, n)
  | _ => None
  end.

Definition is_retrying (e : event) : bool :=
  match e with Log INFO (RetryingWith _) => true | _ => false end.

(** The trace of a run. *)
Definition trace_of {A B C : Type} (run : list event * A * B * C)
  : list event :=
  fst (fst (fst run)).

(** The sleeps of a trace, in order. *)
Definition sleeps (tr : list event) : list Z := omap sleep_of tr.

(** The (marker, line count) pairs of the portion requests, in order. *)
Definition requests (tr : list event) : list (string * Z) :=
  omap requested_of tr.

(** How often a truncated portion was asked again with fewer lines. *)
Definition retries (tr : list event) : nat :=
  length (List.filter is_retrying tr).

(** The line counts of the portion requests, in order. *)
Definition requested_lines (tr : list event) : list Z :=
  map snd (requests tr).

(** The back-off schedule a reply script calls for: a failure that follows
    [k] consecutive failures is slept off for [2 ^ k] time units, and a
    success starts the count again. *)
Fixpoint schedule {A : Type} (k : Z) (replies : list (option A)) : list Z :=
  match replies with
  | [] => []
  | None :: rest => 2 ^ k :: schedule (k + 1) rest
  | Some _ :: rest => schedule 0 rest
  end.

(** [ceil (a / b)] for a positive [b]. *)
Definition ceil_div (a b : Z) : Z := (a + b - 1) / b.

(** How many shrinking retries a line count [n] still allows. *)
Definition room (args : Args.t) (n : Z) : nat :=
  Z.to_nat (ceil_div (10 * n - Args.lines args) 100).

Definition touches_files (e : event) : bool :=
  match e with
  | Remove _ | OpenWb _ | Write _ _ => true
  | _ => false
  end.

(** The body of the [for] loop reaches the [with] block for [log]. *)
Definition is_downloaded (args : Args.t) (log : LogFile)
           (fs : gmap string string) : bool :=
  negb (filtered_out args (LogFileName log))
  && match fs !! destination_of args log with
     | Some local => negb (Z.of_nat (String.length local) =? Size log)
     | None => true
     end.

(** What the body logs and does before it opens the destination. *)
Definition before_open (args : Args.t) (log : LogFile)
           (fs : gmap string string) : list event :=
  match fs !! destination_of args log with
  | Some local =>
      [ Log DEBUG (LogEntry log);
        Log INFO (SizeDoesNotMatch (LogFileName log));
        Log INFO (LocalAndExpectedSize (Z.of_nat (String.length local))
                                       (Size log));
        Remove (destination_of args log) ]
  | None => [ Log DEBUG (LogEntry log) ]
  end.

(** With [args.lines = 50] the floor is 5, and five truncated portions in a
    row take the requested line count from 50 down to 0. *)
Definition args_50_lines : Args.t := Args.mk "db1" "./" None 50 10.

(** A portion as the service sends it when there is text: all three keys. *)
Definition portion_with (data : string) (pending : bool) (m : string)
  : Portion :=
  {| LogFileData := Some (Some data);
     AdditionalDataPending := Some pending;
     Marker := Some m |}.

(** The trace of [k] failed attempts in a row, the first one made with
    [sleepcount = start]. *)
Fixpoint failed_attempts (call : list event) (start : Z) (k : nat)
  : list event :=
  match k with
  | O => []
  | S k' =>
      call ++ [ Log WARNING (SleepDueToFailure start (sleeptime_of start));
                Sleep (sleeptime_of start) ]
           ++ failed_attempts call (start + 1) k'
  end.



(** ** Further readers, for the properties of the whole run *)

Definition write_of (e : event) : option string :=
  match e with Write _ data => Some data | _ => None end.

(** The texts written, in order. *)
Definition writes (tr : list event) : list string := omap write_of tr.

Definition is_describe (e : event) : bool :=
  match e with DescribeDBLogFiles _ => true | _ => false end.

(** How often the listing was asked for. *)
Definition describe_calls (tr : list event) : nat :=
  length (List.filter is_describe tr).

(** The text a reply carries, if it returned one. *)
Definition data_of (reply : option Portion) : option string :=
  match reply with
  | Some result =>
      match LogFileData result with
      | Some (Some data) => Some data
      | _ => None
      end
  | None => None
  end.

(** The marker a reply carries, if it returned one. *)
Definition marker_of (reply : option Portion) : option string :=
  match reply with
  | Some result => Marker result
  | None => None
  end.

Definition concat_strings (l : list string) : string :=
  fold_right String.append "" l.

Definition total (l : list Z) : Z := fold_right Z.add 0 l.

Definition has_slash (s : string) : bool :=
  existsb (Ascii.eqb "/"%char) (list_ascii_of_string s).

(** The replies of a service that hands out a file page by page: every
    page but the last says that more is pending. *)
Definition pages (ps : list (string * string)) (last : string * string)
  : list (option Portion) :=
  map (fun p => Some (portion_with (fst p) true (snd p))) ps
      ++ [ Some (portion_with (fst last) false (snd last)) ].



(** * Properties *)

(** ** Reading traces of concatenations *)

Lemma sleeps_app (tr1 tr2 : list event) :
  sleeps (tr1 ++ tr2) = sleeps tr1 ++ sleeps tr2.
Proof. unfold sleeps. apply omap_app. Qed.

Lemma requests_app (tr1 tr2 : list event) :
  requests (tr1 ++ tr2) = requests tr1 ++ requests tr2.
Proof. unfold requests. apply omap_app. Qed.

Lemma requested_lines_app (tr1 tr2 : list event) :
  requested_lines (tr1 ++ tr2) = requested_lines tr1 ++ requested_lines tr2.
Proof. unfold requested_lines. rewrite requests_app. apply map_app. Qed.

Lemma retries_app (tr1 tr2 : list event) :
  retries (tr1 ++ tr2) = (retries tr1 + retries tr2)%nat.
Proof. unfold retries. rewrite List.filter_app. apply length_app. Qed.

Lemma retries_cons (e : event) (tr : list event) :
  retries (e :: tr) = ((if is_retrying e then 1 else 0) + retries tr)%nat.
Proof. unfold retries. cbn. destruct (is_retrying e); reflexivity. Qed.

Lemma requests_cons (e : event) (tr : list event) :
  requests (e :: tr)
  = match requested_of e with Some r => r :: requests tr | None => requests tr end.
Proof. reflexivity. Qed.

Lemma sleeps_cons (e : event) (tr : list event) :
  sleeps (e :: tr)
  = match sleep_of e with Some t => t :: sleeps tr | None => sleeps tr end.
Proof. reflexivity. Qed.

(** Push the trace readers through the conses and appends of a trace. *)
Ltac read_trace :=
  unfold requested_lines;
  repeat (progress
            (cbn [app];
             rewrite ?retries_cons, ?requests_cons, ?sleeps_cons,
                     ?retries_app, ?requests_app, ?sleeps_app;
             cbn [is_retrying requested_of sleep_of])).

(** ** The guard in double precision *)

Lemma int_gt_double_floor (n : Z) (x : spec_float) (q : Z) :
  floor_double x = Some q -> int_gt_double n x = (q <? n).
Proof.
  destruct x as [s|s| |s m e]; cbn [floor_double int_gt_double];
    intros H; inversion H; subst; clear H; [reflexivity|].
  destruct (0 <=? e) eqn:He; [reflexivity|].
  apply Z.leb_gt in He.
  assert (Hpos : 0 < 2 ^ (- e)) by (apply Z.pow_pos_nonneg; lia).
  set (v := if s then Z.neg m else Z.pos m).
  destruct (v / 2 ^ (- e) <? n) eqn:Hq.
  - apply Z.ltb_lt in Hq. apply Z.ltb_lt.
    destruct (Z.lt_ge_cases v (n * 2 ^ (- e))) as [Hlt|Hge]; [exact Hlt|].
    exfalso. rewrite Z.mul_comm in Hge.
    apply (Z.div_le_lower_bound v (2 ^ (- e)) n Hpos) in Hge. lia.
  - apply Z.ltb_ge in Hq. apply Z.ltb_ge.
    pose proof (Z.mul_div_le v (2 ^ (- e)) Hpos). nia.
Qed.

Lemma tenths_checked :
  forallb tenth_is_exact_enough
    (map (fun i => Z.of_nat i - 10000) (seq 0 (Z.to_nat 20001))) = true.
Proof. vm_compute. reflexivity. Qed.

(** For [args.lines] between -10000 and 10000 the guard of line 146 in
    double precision is the comparison [args.lines < 10 * lines]. *)
Lemma above_floor_double_agrees (args : Args.t) (lines : Z) :
  -10000 <= Args.lines args <= 10000 ->
  above_floor_double args lines = above_floor args lines.
Proof.
  intros Hrange.
  pose proof tenths_checked as Hall. rewrite forallb_forall in Hall.
  specialize (Hall (Args.lines args)).
  unfold tenth_is_exact_enough in Hall.
  destruct (floor_double _) as [q|] eqn:Hfloor.
  - unfold above_floor_double, above_floor.
    rewrite (int_gt_double_floor _ _ _ Hfloor).
    assert (Hq : q = Args.lines args / 10).
    { apply Z.eqb_eq. apply Hall. apply in_map_iff.
      exists (Z.to_nat (Args.lines args + 10000)). split; [lia|].
      apply in_seq. lia. }
    subst q.
    destruct (Args.lines args <? 10 * lines) eqn:Hlt.
    + apply Z.ltb_lt in Hlt. apply Z.ltb_lt.
      apply Z.div_lt_upper_bound; lia.
    + apply Z.ltb_ge in Hlt. apply Z.ltb_ge.
      apply Z.div_le_lower_bound; lia.
  - assert (Hfalse : false = true); [|discriminate].
    apply Hall. apply in_map_iff.
    exists (Z.to_nat (Args.lines args + 10000)). split; [lia|].
    apply in_seq. lia.
Qed.

(** ** One pass through the loop body *)

Section Body.

Variable args : Args.t.
Variable logfilename destination : string.

Abbreviation pass := (iteration args logfilename destination).

Lemma advance_trace result st tr st' fl :
  advance result st = (tr, st', fl) ->
  lines st' = lines st /\ retries tr = 0%nat /\ sleeps tr = []
  /\ requests tr = [] /\ f_contents st' = f_contents st.
Proof.
  unfold advance. intros H.
  destruct (LogFileData result), (Marker result); inversion H; subst;
    cbn; auto.
Qed.

(** A pass leaves [lines] alone or, on the [continue] of line 149, takes
    10 off a count that was above the floor. *)
Ltac split_result result st :=
  unfold on_result;
  destruct (AdditionalDataPending result) as [pending|];
  [destruct (Marker result) as [m|];
   [destruct (LogFileData result) as [[data|]|];
    [destruct (endswith data truncation_notice);
     [destruct (above_floor args (lines (set_sleepcount 0 st))) eqn:Hfloor|]
    |..]|]|].

(** A pass leaves [lines] alone or, on the [continue] of line 149, takes
    10 off a count that was above the floor. *)
Lemma iteration_lines reply st tr st' fl :
  pass reply st = (tr, st', fl) ->
  (lines st' = lines st /\ retries tr = 0%nat)
  \/ (above_floor args (lines st) = true /\ lines st' = lines st - 10
      /\ retries tr = 1%nat).
Proof.
  destruct reply as [result|]; cbn [iteration].
  - split_result result st;
      try (destruct (advance _ _) as [[tr0 st0] fl0] eqn:Hadv;
           apply advance_trace in Hadv as (Hl & Hr & _));
      intros H; inversion H; subst; read_trace;
      solve [ left; cbn in *; auto with lia
            | right; cbn in *; auto ].
  - unfold on_failure. intros H; inversion H; subst. left. cbn. auto.
Qed.

(** A pass issues no request of its own. *)
Lemma iteration_requests reply st tr st' fl :
  pass reply st = (tr, st', fl) -> requests tr = [].
Proof.
  destruct reply as [result|]; cbn [iteration].
  - split_result result st;
      try (destruct (advance _ _) as [[tr0 st0] fl0] eqn:Hadv;
           apply advance_trace in Hadv as (_ & _ & _ & Hq & _));
      intros H; inversion H; subst; read_trace; auto.
  - unfold on_failure. intros H; inversion H; subst. reflexivity.
Qed.

End Body.

(** ** The pagination loop as a whole *)

Section Loop.

Variable args : Args.t.
Variable logfilename destination : string.

Abbreviation body := (iteration args logfilename destination).
Abbreviation loop := (download_loop args logfilename destination).

Lemma loop_left replies st :
  loop_condition args st = false ->
  loop replies st = ([], st, Finished, replies).
Proof. intros H. destruct replies; cbn; rewrite H; reflexivity. Qed.

Lemma loop_starved st :
  loop_condition args st = true ->
  loop [] st = (request args logfilename st, st, Starved, []).
Proof. intros H. cbn. rewrite H. reflexivity. Qed.

Lemma loop_next reply rest st tr st' :
  loop_condition args st = true ->
  body reply st = (tr, st', Next) ->
  loop (reply :: rest) st
  = let '(tr', st'', s, rest') := loop rest st' in
    (request args logfilename st ++ tr ++ tr', st'', s, rest').
Proof. intros H Hb. cbn. rewrite H, Hb. reflexivity. Qed.

Lemma loop_uncaught reply rest st tr st' e :
  loop_condition args st = true ->
  body reply st = (tr, st', Uncaught e) ->
  loop (reply :: rest) st
  = (request args logfilename st ++ tr, st', Raised e, rest).
Proof. intros H Hb. cbn. rewrite H, Hb. reflexivity. Qed.

(** Whatever holds of the current line count and survives the shrinking
    step holds of every line count the loop requests. *)
Lemma requested_lines_invariant (P : Z -> Prop) :
  (forall n, P n -> above_floor args n = true -> P (n - 10)) ->
  forall replies st tr st' s rest,
    P (lines st) ->
    loop replies st = (tr, st', s, rest) ->
    Forall P (requested_lines tr) /\ P (lines st').
Proof.
  intros Hstep. induction replies as [|reply replies IH];
    intros st tr st' s rest HP Hrun.
  - destruct (loop_condition args st) eqn:Hc.
    + rewrite loop_starved in Hrun by assumption.
      inversion Hrun; subst. split; [|assumption].
      cbn. constructor; [assumption|constructor].
    + rewrite loop_left in Hrun by assumption.
      inversion Hrun; subst. split; [constructor|assumption].
  - destruct (loop_condition args st) eqn:Hc.
    + destruct (body reply st) as [[tr0 st0] fl] eqn:Hb.
      assert (HP0 : P (lines st0)).
      { destruct (iteration_lines _ _ _ _ _ _ _ _ Hb) as [[-> _]|(Hf & -> & _)];
          auto. }
      pose proof (iteration_requests _ _ _ _ _ _ _ _ Hb) as Hq.
      destruct fl as [|e].
      * rewrite (loop_next _ _ _ _ _ Hc Hb) in Hrun.
        destruct (loop replies st0) as [[[tr1 st1] s1] rest1] eqn:Hrest.
        inversion Hrun; subst.
        destruct (IH _ _ _ _ _ HP0 Hrest) as [Hall Hlast].
        split; [|assumption].
        read_trace. rewrite Hq. cbn. constructor; assumption.
      * rewrite (loop_uncaught _ _ _ _ _ _ Hc Hb) in Hrun.
        inversion Hrun; subst. split; [|assumption].
        read_trace. rewrite Hq. cbn. constructor; [assumption|constructor].
    + rewrite loop_left in Hrun by assumption.
      inversion Hrun; subst. split; [constructor|assumption].
Qed.

Lemma room_shrink n :
  above_floor args n = true -> room args n = S (room args (n - 10)).
Proof.
  unfold above_floor, room, ceil_div. intros H.
  apply Z.ltb_lt in H.
  replace (10 * n - Args.lines args + 100 - 1)
    with ((10 * (n - 10) - Args.lines args + 100 - 1) + 1 * 100) by ring.
  rewrite Z.div_add by lia.
  rewrite <- Z2Nat.inj_succ.
  - f_equal; lia.
  - apply Z.div_pos; lia.
Qed.

Lemma retries_room replies st tr st' s rest :
  loop replies st = (tr, st', s, rest) ->
  (retries tr <= room args (lines st))%nat.
Proof.
  revert st tr st' s rest.
  induction replies as [|reply replies IH]; intros st tr st' s rest Hrun.
  - destruct (loop_condition args st) eqn:Hc.
    + rewrite loop_starved in Hrun by assumption.
      inversion Hrun; subst. cbn. lia.
    + rewrite loop_left in Hrun by assumption.
      inversion Hrun; subst. cbn. lia.
  - destruct (loop_condition args st) eqn:Hc.
    + destruct (body reply st) as [[tr0 st0] fl] eqn:Hb.
      assert (Hstep : (retries tr0 + room args (lines st0)
                     <= room args (lines st))%nat).
      { destruct (iteration_lines _ _ _ _ _ _ _ _ Hb)
          as [[-> ->]|(Hf & -> & ->)]; [lia|].
        rewrite (room_shrink _ Hf). lia. }
      destruct fl as [|e].
      * rewrite (loop_next _ _ _ _ _ Hc Hb) in Hrun.
        destruct (loop replies st0) as [[[tr1 st1] s1] rest1] eqn:Hrest.
        inversion Hrun; subst. apply IH in Hrest.
        read_trace. lia.
      * rewrite (loop_uncaught _ _ _ _ _ _ Hc Hb) in Hrun.
        inversion Hrun; subst. read_trace. lia.
    + rewrite loop_left in Hrun by assumption.
      inversion Hrun; subst. cbn. lia.
Qed.

End Loop.

(** ** Failed attempts in a row *)

Section Attempts.

Variable args : Args.t.

Lemma set_sleepcount_same st : set_sleepcount (sleepcount st) st = st.
Proof. destruct st; reflexivity. Qed.

Lemma set_sleepcount_twice a b st :
  set_sleepcount a (set_sleepcount b st) = set_sleepcount a st.
Proof. reflexivity. Qed.

(** [k] failures of the listing call below the ceiling are each slept off
    and followed by another attempt. *)
Lemma describe_loop_failures (k : nat) :
  forall start rest,
    start + Z.of_nat k <= Args.backoff args ->
    describe_loop args (repeat None k ++ rest) start
    = let '(tr, sleepcount', response, s, rest') :=
        describe_loop args rest (start + Z.of_nat k) in
      (failed_attempts [ DescribeDBLogFiles (Args.instance args) ] start k
         ++ tr,
       sleepcount', response, s, rest').
Proof.
  induction k as [|k IH]; intros start rest Hle.
  - cbn [repeat app failed_attempts Z.of_nat]. rewrite Z.add_0_r.
    destruct (describe_loop args rest start) as [[[[tr sc] resp] s] rest'].
    reflexivity.
  - cbn [repeat app describe_loop].
    replace (start <? Args.backoff args) with true
      by (symmetry; apply Z.ltb_lt; lia).
    rewrite IH by lia.
    replace (start + 1 + Z.of_nat k) with (start + Z.of_nat (S k)) by lia.
    destruct (describe_loop args rest (start + Z.of_nat (S k)))
      as [[[[tr sc] resp] s] rest'].
    reflexivity.
Qed.

Variable logfilename destination : string.

Lemma request_set_sleepcount v st :
  request args logfilename (set_sleepcount v st)
  = request args logfilename st.
Proof. reflexivity. Qed.

(** The same for the portion call: nothing but [sleepcount] moves. *)
Lemma download_loop_failures (k : nat) :
  forall st rest,
    more_data st = true ->
    sleepcount st + Z.of_nat k <= Args.backoff args ->
    download_loop args logfilename destination (repeat None k ++ rest) st
    = let '(tr, st', s, rest') :=
        download_loop args logfilename destination rest
          (set_sleepcount (sleepcount st + Z.of_nat k) st) in
      (failed_attempts (request args logfilename st) (sleepcount st) k
         ++ tr,
       st', s, rest').
Proof.
  induction k as [|k IH]; intros st rest Hmore Hle.
  - cbn [repeat app failed_attempts Z.of_nat]. rewrite Z.add_0_r.
    rewrite set_sleepcount_same.
    destruct (download_loop _ _ _ rest st) as [[[tr st'] s] rest'].
    reflexivity.
  - cbn [repeat app].
    assert (Hc : loop_condition args st = true).
    { unfold loop_condition. rewrite Hmore. apply Z.ltb_lt. lia. }
    rewrite (loop_next args logfilename destination None _ st _ _ Hc eq_refl).
    rewrite IH by (cbn; auto with lia).
    cbn [sleepcount set_sleepcount]. rewrite set_sleepcount_twice.
    change (lines _) with (lines st). change (more_data _) with (more_data st).
    replace (sleepcount st + 1 + Z.of_nat k)
      with (sleepcount st + Z.of_nat (S k)) by lia.
    destruct (download_loop _ _ _ rest _) as [[[tr st'] s] rest'].
    cbn [failed_attempts]. rewrite request_set_sleepcount.
    rewrite <- !app_assoc. reflexivity.
Qed.

(** A call that returns makes the body forget [sleepcount]. *)
Lemma on_result_set_sleepcount result v st :
  on_result args logfilename destination result (set_sleepcount v st)
  = on_result args logfilename destination result st.
Proof. reflexivity. Qed.

(** What a pass sleeps and how it leaves [sleepcount]. *)
Lemma iteration_sleeps reply st tr st' fl :
  iteration args logfilename destination reply st = (tr, st', fl) ->
  match reply with
  | None => sleeps tr = [ 2 ^ sleepcount st ]
            /\ sleepcount st' = sleepcount st + 1
  | Some _ => sleeps tr = [] /\ sleepcount st' = 0
  end.
Proof.
  destruct reply as [result|]; cbn [iteration].
  - unfold on_result.
    destruct (AdditionalDataPending result) as [pending|];
      [destruct (Marker result) as [m|];
       [destruct (LogFileData result) as [[data|]|];
        [destruct (endswith data truncation_notice);
         [destruct (above_floor args (lines (set_sleepcount 0 st)))|]
        |..]|]|];
      try (destruct (advance _ _) as [[tr0 st0] fl0] eqn:Hadv;
           pose proof Hadv as Hsc;
           apply advance_trace in Hadv as (_ & _ & Hs & _));
      intros H; inversion H; subst; read_trace; rewrite ?Hs;
      (split; [reflexivity|]); try reflexivity;
      unfold advance in Hsc;
      destruct (LogFileData result), (Marker result);
      inversion Hsc; reflexivity.
  - unfold on_failure. intros H; inversion H; subst. split; reflexivity.
Qed.

End Attempts.

(** ** The back-off schedule *)

Lemma schedule_failures {A : Type} (k : nat) :
  forall start : Z,
    0 <= start ->
    schedule start (repeat (@None A) k)
    = map (fun i => 2 ^ (start + Z.of_nat i)) (seq 0 k).
Proof.
  induction k as [|k IH]; intros start Hstart; [reflexivity|].
  cbn [repeat schedule seq map]. rewrite Z.add_0_r. f_equal.
  rewrite IH by lia. rewrite <- seq_shift, map_map.
  apply map_ext. intros i. f_equal. lia.
Qed.

Lemma describe_loop_schedule (args : Args.t) :
  forall replies start,
    let '(tr, _, _, _, rest) := describe_loop args replies start in
    exists used, replies = used ++ rest /\ sleeps tr = schedule start used.
Proof.
  induction replies as [|[response|] replies IH]; intros start;
    cbn [describe_loop]; destruct (start <? Args.backoff args).
  - exists []. split; reflexivity.
  - exists []. split; reflexivity.
  - exists [Some response]. split; reflexivity.
  - exists []. split; reflexivity.
  - specialize (IH (start + 1)).
    destruct (describe_loop args replies (start + 1))
      as [[[[tr sc] resp] s] rest].
    destruct IH as (used & -> & Hs).
    exists (None :: used). split; [reflexivity|].
    read_trace. rewrite Hs. reflexivity.
  - exists []. split; reflexivity.
Qed.

Lemma download_loop_schedule (args : Args.t) (logfilename destination : string) :
  forall replies st,
    let '(tr, _, _, rest) :=
      download_loop args logfilename destination replies st in
    exists used,
      replies = used ++ rest /\ sleeps tr = schedule (sleepcount st) used.
Proof.
  induction replies as [|reply replies IH]; intros st.
  - destruct (loop_condition args st) eqn:Hc.
    + rewrite loop_starved by assumption. exists []. split; reflexivity.
    + rewrite loop_left by assumption. exists []. split; reflexivity.
  - destruct (loop_condition args st) eqn:Hc.
    + destruct (iteration args logfilename destination reply st)
        as [[tr0 st0] fl] eqn:Hb.
      pose proof (iteration_sleeps _ _ _ _ _ _ _ _ Hb) as Hs0.
      destruct fl as [|e].
      * rewrite (loop_next _ _ _ _ _ _ _ _ Hc Hb).
        specialize (IH st0).
        destruct (download_loop _ _ _ replies st0) as [[[tr1 st1] s1] rest1].
        destruct IH as (used & -> & Hs).
        exists (reply :: used). split; [reflexivity|].
        read_trace. rewrite Hs.
        destruct reply; destruct Hs0 as [-> ->]; reflexivity.
      * rewrite (loop_uncaught _ _ _ _ _ _ _ _ _ Hc Hb).
        exists [reply]. split; [reflexivity|].
        read_trace.
        destruct reply; destruct Hs0 as [-> _]; reflexivity.
    + rewrite loop_left by assumption. exists []. split; reflexivity.
Qed.

Lemma sleeps_failed_attempts (call : list event) (k : nat) :
  sleeps call = [] ->
  forall start : Z,
    sleeps (failed_attempts call start k)
    = map (fun i => 2 ^ (start + Z.of_nat i)) (seq 0 k).
Proof.
  intros Hcall. induction k as [|k IH]; intros start; [reflexivity|].
  cbn [failed_attempts seq map]. rewrite !sleeps_app, Hcall, IH.
  rewrite Z.add_0_r. unfold sleeptime_of. cbn [app]. read_trace. f_equal.
  rewrite <- seq_shift, map_map.
  apply map_ext. intros i. f_equal. lia.
Qed.

(** C9: in the loop around the listing call and in the pagination loop,
    [k] failures in a row, for every [k] up to the ceiling [args.backoff],
    are each answered by the warning and a sleep and then by another
    attempt: the run starts with [k] failed attempts, the one after [j]
    failures slept off for exactly [2 ^ j] time units, so that the sleeps
    are 1, 2, 4, ..., [2 ^ (k - 1)], and goes on from there.  On any reply
    script the sleeps of either loop are the back-off schedule of the
    replies it consumed. *)
Theorem C9_sleep_before_kth_retry
        (args : Args.t) (k : nat)
        (Hceiling : Z.of_nat k <= Args.backoff args) :
  (forall rest,
      describe_loop args (repeat None k ++ rest) 0
      = let '(tr, sleepcount', response, s, rest') :=
          describe_loop args rest (Z.of_nat k) in
        (failed_attempts [ DescribeDBLogFiles (Args.instance args) ] 0 k
           ++ tr,
         sleepcount', response, s, rest'))
  /\ (forall logfilename destination rest st,
         more_data st = true ->
         sleepcount st = 0 ->
         download_loop args logfilename destination (repeat None k ++ rest) st
         = let '(tr, st', s, rest') :=
             download_loop args logfilename destination rest
               (set_sleepcount (Z.of_nat k) st) in
           (failed_attempts (request args logfilename st) 0 k ++ tr,
            st', s, rest'))
  /\ (forall call,
         sleeps call = [] ->
         sleeps (failed_attempts call 0 k)
         = map (fun i => 2 ^ Z.of_nat i) (seq 0 k))
  /\ (forall replies,
         let '(tr, _, _, _, rest) := describe_loop args replies 0 in
         exists used, replies = used ++ rest /\ sleeps tr = schedule 0 used)
  /\ (forall logfilename destination replies st,
         let '(tr, _, _, rest) :=
           download_loop args logfilename destination replies st in
         exists used,
           replies = used ++ rest
           /\ sleeps tr = schedule (sleepcount st) used)
  /\ schedule 0 (repeat (@None Portion) k)
     = map (fun i => 2 ^ Z.of_nat i) (seq 0 k)
  /\ schedule 0 (repeat (@None (list LogFile)) k)
     = map (fun i => 2 ^ Z.of_nat i) (seq 0 k).
Proof.
  split; [|split; [|split; [|split; [|split; [|split]]]]].
  - intros rest.
    rewrite describe_loop_failures by lia. rewrite Z.add_0_l. reflexivity.
  - intros logfilename destination rest st Hmore Hsc.
    rewrite download_loop_failures by (auto with lia).
    rewrite Hsc, Z.add_0_l. reflexivity.
  - intros call Hcall. rewrite sleeps_failed_attempts by assumption.
    apply map_ext. intros i. f_equal.
  - intros replies. apply describe_loop_schedule.
  - intros logfilename destination replies st.
    apply download_loop_schedule.
  - apply (schedule_failures k 0). lia.
  - apply (schedule_failures k 0). lia.
Qed.

(** C9 with [args.backoff = 10] and five failed listings: the run starts
    with the five attempts and sleeps 1, 2, 4, 8 and 16 before the sixth. *)
Lemma C9_witness :
  let args := Args.mk "db1" "out" None 1000 10 in
  describe_loop args (repeat None 5 ++ [ Some [] ]) 0
  = (failed_attempts [ DescribeDBLogFiles "db1" ] 0 5
       ++ [ DescribeDBLogFiles "db1" ],
     5, Some [], Finished, [])
  /\ sleeps (failed_attempts [ DescribeDBLogFiles "db1" ] 0 5)
     = [ 1; 2; 4; 8; 16 ].
Proof.
  intros args.
  assert (Hceiling : Z.of_nat 5 <= Args.backoff args) by (cbn; lia).
  pose proof (C9_sleep_before_kth_retry args 5 Hceiling)
    as (Hlisting & _ & Hsleeps & _).
  split.
  - rewrite Hlisting. reflexivity.
  - exact (Hsleeps [ DescribeDBLogFiles "db1" ] eq_refl).
Defined.

(** ** Retrying up to the ceiling *)

Section Ceiling.

Variable args : Args.t.

Abbreviation describe_call := [ DescribeDBLogFiles (Args.instance args) ].

Lemma main_listing_succeeds (k : nat) fs logs listings portions :
  Args.backoff args = Z.of_nat (S k) ->
  _main args fs (repeat None k ++ Some logs :: listings) portions
  = let '(tr, fs', s, rest) := for_logs args logs fs portions in
    (failed_attempts describe_call 0 k ++ describe_call ++ tr,
     fs', s, rest).
Proof.
  intros HN. unfold _main.
  rewrite describe_loop_failures by lia.
  cbn [describe_loop]. rewrite Z.add_0_l.
  replace (Z.of_nat k <? Args.backoff args) with true
    by (symmetry; apply Z.ltb_lt; lia).
  replace (Z.of_nat k =? Args.backoff args) with false
    by (symmetry; apply Z.eqb_neq; lia).
  destruct (for_logs args logs fs portions) as [[[tr fs'] s] rest].
  rewrite <- app_assoc. reflexivity.
Qed.

Lemma main_listing_exhausted (k : nat) fs listings portions :
  Args.backoff args = Z.of_nat k ->
  _main args fs (repeat None k ++ listings) portions
  = (failed_attempts describe_call 0 k
       ++ [ Log ERROR (ErrorDescribing (Args.instance args)) ],
     fs, Finished, portions).
Proof.
  intros HN. unfold _main.
  rewrite describe_loop_failures by lia. rewrite Z.add_0_l.
  assert (Hlt : (Z.of_nat k <? Args.backoff args) = false)
    by (apply Z.ltb_ge; lia).
  assert (Heq : (Z.of_nat k =? Args.backoff args) = true)
    by (apply Z.eqb_eq; lia).
  destruct listings as [|[response|] listings]; cbn [describe_loop];
    rewrite Hlt, Heq, app_nil_r; reflexivity.
Qed.

Variable logfilename destination : string.

Lemma loop_success_forgets_sleepcount v result rest st :
  loop_condition args st = true ->
  loop_condition args (set_sleepcount v st) = true ->
  download_loop args logfilename destination (Some result :: rest)
    (set_sleepcount v st)
  = download_loop args logfilename destination (Some result :: rest) st.
Proof.
  intros Hc Hc'. cbn [download_loop iteration].
  rewrite Hc, Hc', on_result_set_sleepcount, request_set_sleepcount.
  reflexivity.
Qed.

Lemma loop_portion_succeeds (k : nat) result rest st :
  Args.backoff args = Z.of_nat (S k) ->
  more_data st = true ->
  sleepcount st = 0 ->
  download_loop args logfilename destination
    (repeat None k ++ Some result :: rest) st
  = let '(tr, st', s, rest') :=
      download_loop args logfilename destination (Some result :: rest) st in
    (failed_attempts (request args logfilename st) 0 k ++ tr, st', s, rest').
Proof.
  intros HN Hmore Hsc.
  rewrite download_loop_failures by (auto with lia).
  rewrite Hsc, Z.add_0_l.
  rewrite loop_success_forgets_sleepcount; [reflexivity| |];
    unfold loop_condition; cbn [more_data sleepcount set_sleepcount];
    rewrite Hmore, ?Hsc; apply Z.ltb_lt; lia.
Qed.

Lemma loop_portion_exhausted (k : nat) rest st :
  Args.backoff args = Z.of_nat k ->
  more_data st = true ->
  sleepcount st = 0 ->
  download_loop args logfilename destination (repeat None k ++ rest) st
  = (failed_attempts (request args logfilename st) 0 k,
     set_sleepcount (Args.backoff args) st, Finished, rest).
Proof.
  intros HN Hmore Hsc.
  rewrite download_loop_failures by (auto with lia).
  rewrite Hsc, Z.add_0_l, loop_left.
  - rewrite app_nil_r, HN. reflexivity.
  - unfold loop_condition. cbn [more_data sleepcount set_sleepcount].
    rewrite Hmore. apply Z.ltb_ge. lia.
Qed.

End Ceiling.

(** The [with] block after a pagination loop that was left by its
    condition. *)
Lemma download_after_loop args log fs replies tr st rest :
  download_loop args (LogFileName log) (destination_of args log) replies
    (initial_session args) = (tr, st, Finished, rest) ->
  download args log fs replies
  = ([ OpenWb (destination_of args log) ] ++ tr ++
     (if sleepcount st =? Args.backoff args
      then [ Log ERROR (TooManyErrors (LogFileName log)) ] else []),
     <[destination_of args log := f_contents st]> fs, Finished, rest).
Proof. intros H. unfold download. rewrite H. reflexivity. Qed.

(** C4: with [args.backoff = N], a remote operation that fails [N - 1] times
    and then returns has its value used as if it had returned at once: the
    listing goes on to the loop over the files it lists, a portion is handled
    by the loop body; the failed attempts only add their calls, warnings and
    sleeps to the trace.  After [N] failures in a row the loop is left
    without another attempt: the listing reports its error and [_main]
    returns, the pagination loop is left with [sleepcount = N] and the error
    naming the file is reported. *)
Theorem C4_retry_up_to_ceiling (args : Args.t) (N : nat)
        (HN : Args.backoff args = Z.of_nat N) :
  (forall k fs logs listings portions,
      N = S k ->
      _main args fs (repeat None k ++ Some logs :: listings) portions
      = let '(tr, fs', s, rest) := for_logs args logs fs portions in
        (failed_attempts [ DescribeDBLogFiles (Args.instance args) ] 0 k
           ++ [ DescribeDBLogFiles (Args.instance args) ] ++ tr,
         fs', s, rest))
  /\ (forall fs listings portions,
         _main args fs (repeat None N ++ listings) portions
         = (failed_attempts [ DescribeDBLogFiles (Args.instance args) ] 0 N
              ++ [ Log ERROR (ErrorDescribing (Args.instance args)) ],
            fs, Finished, portions))
  /\ (forall k logfilename destination result rest st,
         N = S k ->
         more_data st = true ->
         sleepcount st = 0 ->
         download_loop args logfilename destination
           (repeat None k ++ Some result :: rest) st
         = let '(tr, st', s, rest') :=
             download_loop args logfilename destination
               (Some result :: rest) st in
           (failed_attempts (request args logfilename st) 0 k ++ tr,
            st', s, rest'))
  /\ (forall logfilename destination rest st,
         more_data st = true ->
         sleepcount st = 0 ->
         download_loop args logfilename destination (repeat None N ++ rest) st
         = (failed_attempts (request args logfilename st) 0 N,
            set_sleepcount (Args.backoff args) st, Finished, rest))
  /\ (forall log fs rest,
         download args log fs (repeat None N ++ rest)
         = ([ OpenWb (destination_of args log) ]
              ++ failed_attempts
                   (request args (LogFileName log) (initial_session args)) 0 N
              ++ [ Log ERROR (TooManyErrors (LogFileName log)) ],
            <[destination_of args log := ""]> fs, Finished, rest)).
Proof.
  split; [|split; [|split; [|split]]].
  - intros k fs logs listings portions ->.
    apply main_listing_succeeds. assumption.
  - intros fs listings portions. apply main_listing_exhausted. assumption.
  - intros k logfilename destination result rest st -> Hmore Hsc.
    apply loop_portion_succeeds; assumption.
  - intros logfilename destination rest st Hmore Hsc.
    apply loop_portion_exhausted; assumption.
  - intros log fs rest.
    pose proof (loop_portion_exhausted args (LogFileName log)
                  (destination_of args log) N rest (initial_session args)
                  HN eq_refl eq_refl) as Hloop.
    rewrite (download_after_loop args log fs _ _ _ _ Hloop).
    cbn [sleepcount set_sleepcount]. rewrite Z.eqb_refl. reflexivity.
Qed.

(** C4 with [args.backoff = 3]: two failed listings and a third that
    returns lead into the loop over the files; three failed listings end the
    run with the error; three failed portion calls end the loop for the file
    with [sleepcount = 3]. *)
Lemma C4_witness :
  let args := Args.mk "db1" "out" None 1000 3 in
  let st := {| lines := 1000; more_data := true; marker := "17";
               sleepcount := 0; chunk := 1; f_contents := "first lines" |} in
  _main args ∅ [ None; None; Some [ mkLogFile "error/a.log" 3 ] ]
    [ Some (portion_with "abc" false "3") ]
  = (let '(tr, fs', s, rest) :=
       for_logs args [ mkLogFile "error/a.log" 3 ] ∅
         [ Some (portion_with "abc" false "3") ] in
     (failed_attempts [ DescribeDBLogFiles "db1" ] 0 2
        ++ [ DescribeDBLogFiles "db1" ] ++ tr,
      fs', s, rest))
  /\ _main args ∅ [ None; None; None; Some [ mkLogFile "error/a.log" 3 ] ]
       [ Some (portion_with "abc" false "3") ]
     = (failed_attempts [ DescribeDBLogFiles "db1" ] 0 3
          ++ [ Log ERROR (ErrorDescribing "db1") ],
        ∅, Finished, [ Some (portion_with "abc" false "3") ])
  /\ download_loop args "error/a.log" "out/a.log"
       [ None; None; None; Some (portion_with "abc" false "3") ] st
     = (failed_attempts (request args "error/a.log" st) 0 3,
        set_sleepcount 3 st, Finished,
        [ Some (portion_with "abc" false "3") ]).
Proof.
  intros args st.
  pose proof (C4_retry_up_to_ceiling args 3 eq_refl)
    as (Hlist & Hlist_out & _ & Hloop_out & _).
  split; [|split].
  - exact (Hlist 2%nat ∅ [ mkLogFile "error/a.log" 3 ] []
             [ Some (portion_with "abc" false "3") ] eq_refl).
  - exact (Hlist_out ∅ [ Some [ mkLogFile "error/a.log" 3 ] ]
             [ Some (portion_with "abc" false "3") ]).
  - exact (Hloop_out "error/a.log" "out/a.log"
             [ Some (portion_with "abc" false "3") ] st eq_refl eq_refl).
Defined.

(** The schedule of five failures in a row. *)
Example five_failed_listings_sleep_1_2_4_8_16 :
  sleeps (trace_of (_main (Args.mk "db1" "out" None 1000 10) ∅
                      [ None; None; None; None; None; Some [] ] []))
  = [1; 2; 4; 8; 16].
Proof. reflexivity. Qed.

(** ** Truncated portions *)

Section Truncation.

Variable args : Args.t.
Variable logfilename destination : string.

(** Lines 144-149, above the floor: the portion is dropped and asked for
    again. *)
Lemma truncated_above_floor st data pending m :
  endswith data truncation_notice = true ->
  above_floor args (lines st) = true ->
  iteration args logfilename destination
    (Some (portion_with data pending m)) st
  = ([ Log INFO (PendingAndMarker pending m);
       Log INFO SegmentTruncated;
       Log INFO (RetryingWith (lines st - 10)) ],
     set_lines (lines st - 10) (set_sleepcount 0 st), Next).
Proof.
  intros Htr Hfl. unfold iteration, on_result, portion_with.
  cbn [AdditionalDataPending Marker LogFileData].
  rewrite Htr. change (lines (set_sleepcount 0 st)) with (lines st).
  rewrite Hfl. reflexivity.
Qed.

(** Lines 144-160, at or below the floor: the portion is written as it is
    and the loop moves on. *)
Lemma truncated_at_floor st data pending m :
  endswith data truncation_notice = true ->
  above_floor args (lines st) = false ->
  iteration args logfilename destination
    (Some (portion_with data pending m)) st
  = ([ Log INFO (PendingAndMarker pending m);
       Log INFO SegmentTruncated;
       Write destination data;
       Log DEBUG (ResultEntry (Some pending) (Some m)) ],
     {| lines := lines st; more_data := pending; marker := m;
        sleepcount := 0; chunk := chunk st + 1;
        f_contents := f_contents st +:+ data |},
     Next).
Proof.
  intros Htr Hfl. unfold iteration, on_result, portion_with.
  cbn [AdditionalDataPending Marker LogFileData].
  rewrite Htr. change (lines (set_sleepcount 0 st)) with (lines st).
  rewrite Hfl. reflexivity.
Qed.

(** A loop whose condition holds starts with a request. *)
Lemma loop_begins_with_request replies st :
  loop_condition args st = true ->
  exists more,
    trace_of (download_loop args logfilename destination replies st)
    = request args logfilename st ++ more.
Proof.
  intros Hc. destruct replies as [|reply rest].
  - rewrite loop_starved by assumption. exists []. reflexivity.
  - destruct (iteration args logfilename destination reply st)
      as [[tr st'] [|e]] eqn:Hb.
    + rewrite (loop_next _ _ _ _ _ _ _ _ Hc Hb).
      destruct (download_loop _ _ _ rest st') as [[[tr' st''] s] rest'].
      exists (tr ++ tr'). reflexivity.
    + rewrite (loop_uncaught _ _ _ _ _ _ _ _ _ Hc Hb).
      exists tr. reflexivity.
Qed.

End Truncation.

(** C5: with [args.lines = 1000] and no earlier shrinking, a portion whose
    text ends with the truncation notice is not written: the pass through the
    body only logs, leaves the marker, the chunk number and the file as they
    were and sets [lines] to 990; the loop then asks for the same marker
    again with 990 lines. *)
Theorem C5_truncated_portion_retried_with_990
        (args : Args.t) (logfilename destination : string) (st : Session)
        (data : string) (pending : bool) (m : string)
        (rest : list (option Portion))
        (Hinitial : Args.lines args = 1000)
        (Hlines : lines st = 1000)
        (Htruncated : endswith data truncation_notice = true)
        (Hcondition : loop_condition args st = true)
        (Hsleepcount : 0 <= sleepcount st) :
  iteration args logfilename destination
    (Some (portion_with data pending m)) st
  = ([ Log INFO (PendingAndMarker pending m);
       Log INFO SegmentTruncated;
       Log INFO (RetryingWith 990) ],
     {| lines := 990; more_data := more_data st; marker := marker st;
        sleepcount := 0; chunk := chunk st; f_contents := f_contents st |},
     Next)
  /\ exists more,
      trace_of (download_loop args logfilename destination
                  (Some (portion_with data pending m) :: rest) st)
      = [ Log INFO (Requesting logfilename (marker st) (chunk st));
          DownloadDBLogFilePortion (Args.instance args) logfilename
            (marker st) 1000;
          Log INFO (PendingAndMarker pending m);
          Log INFO SegmentTruncated;
          Log INFO (RetryingWith 990);
          Log INFO (Requesting logfilename (marker st) (chunk st));
          DownloadDBLogFilePortion (Args.instance args) logfilename
            (marker st) 990 ] ++ more.
Proof.
  assert (Hfloor : above_floor args (lines st) = true).
  { unfold above_floor. rewrite Hinitial, Hlines. reflexivity. }
  pose proof (truncated_above_floor args logfilename destination st data
                pending m Htruncated Hfloor) as Hpass.
  rewrite Hlines in Hpass. change (1000 - 10) with 990 in Hpass.
  split; [exact Hpass|].
  rewrite (loop_next _ _ _ _ _ _ _ _ Hcondition Hpass).
  unfold loop_condition in Hcondition.
  apply andb_true_iff in Hcondition as [Hmore Hlt]. apply Z.ltb_lt in Hlt.
  destruct (loop_begins_with_request args logfilename destination rest
              (set_lines 990 (set_sleepcount 0 st))) as [more Hmore'].
  { unfold loop_condition. cbn. rewrite Hmore. apply Z.ltb_lt. lia. }
  destruct (download_loop _ _ _ rest _) as [[[tr' st''] s] rest'].
  unfold trace_of in *. cbn [fst] in *. subst tr'.
  exists more. unfold request. cbn. rewrite Hlines. reflexivity.
Qed.

(** C5 at a concrete session: the second portion of [error/a.log] comes
    back truncated. *)
Lemma C5_witness :
  let args := Args.mk "db1" "./" None 1000 10 in
  let st := {| lines := 1000; more_data := true; marker := "17";
               sleepcount := 0; chunk := 1; f_contents := "first lines" |} in
  let data := "more lines" +:+ truncation_notice in
  iteration args "error/a.log" "./a.log"
    (Some (portion_with data true "42")) st
  = ([ Log INFO (PendingAndMarker true "42");
       Log INFO SegmentTruncated;
       Log INFO (RetryingWith 990) ],
     {| lines := 990; more_data := true; marker := "17";
        sleepcount := 0; chunk := 1; f_contents := "first lines" |},
     Next).
Proof.
  intros args st data.
  apply (C5_truncated_portion_retried_with_990 args "error/a.log" "./a.log"
           st data true "42" []);
    [reflexivity | reflexivity | reflexivity | reflexivity | cbn; lia].
Defined.

(** C10: a truncated portion above the floor is asked for again at the same
    marker with 10 lines fewer and nothing written; at or below the floor (10
    per cent of [args.lines]) it is written and the loop moves on to the
    marker of the reply; and since [lines] is never raised while a file is
    fetched, the whole loop for a file, hence the stay at any one marker,
    sees at most [ceil (0.9 * args.lines / 10)] such retries, which is within
    the bound [ceil (0.9 * args.lines / 10) + 1]. *)
Theorem C10_truncation_retries_bounded
        (args : Args.t) (logfilename destination : string) :
  (forall st data pending m,
      endswith data truncation_notice = true ->
      above_floor args (lines st) = true ->
      iteration args logfilename destination
        (Some (portion_with data pending m)) st
      = ([ Log INFO (PendingAndMarker pending m);
           Log INFO SegmentTruncated;
           Log INFO (RetryingWith (lines st - 10)) ],
         {| lines := lines st - 10; more_data := more_data st;
            marker := marker st; sleepcount := 0; chunk := chunk st;
            f_contents := f_contents st |},
         Next))
  /\ (forall st data pending m,
         endswith data truncation_notice = true ->
         above_floor args (lines st) = false ->
         iteration args logfilename destination
           (Some (portion_with data pending m)) st
         = ([ Log INFO (PendingAndMarker pending m);
              Log INFO SegmentTruncated;
              Write destination data;
              Log DEBUG (ResultEntry (Some pending) (Some m)) ],
            {| lines := lines st; more_data := pending; marker := m;
               sleepcount := 0; chunk := chunk st + 1;
               f_contents := f_contents st +:+ data |},
            Next))
  /\ (forall replies,
         (retries (trace_of (download_loop args logfilename destination
                               replies (initial_session args)))
          <= Z.to_nat (ceil_div (9 * Args.lines args) 100))%nat
         /\ (retries (trace_of (download_loop args logfilename destination
                                  replies (initial_session args)))
             <= Z.to_nat (ceil_div (9 * Args.lines args) 100) + 1)%nat).
Proof.
  split; [|split].
  - intros st data pending m Htr Hfl.
    apply truncated_above_floor; assumption.
  - intros st data pending m Htr Hfl.
    apply truncated_at_floor; assumption.
  - intros replies.
    destruct (download_loop args logfilename destination replies
                (initial_session args)) as [[[tr st'] s] rest] eqn:Hrun.
    apply retries_room in Hrun. unfold room in Hrun.
    cbn [lines initial_session] in Hrun.
    replace (10 * Args.lines args - Args.lines args)
      with (9 * Args.lines args) in Hrun by ring.
    unfold trace_of. cbn [fst]. lia.
Qed.

(** C10 at the default [args.lines = 1000]: a truncated second portion is
    asked for again with 990 lines, and three truncated replies stay within
    the bound of 91 retries. *)
Lemma C10_witness :
  let args := Args.mk "db1" "./" None 1000 10 in
  let st := {| lines := 1000; more_data := true; marker := "17";
               sleepcount := 0; chunk := 1; f_contents := "first lines" |} in
  let data := "more lines" +:+ truncation_notice in
  iteration args "error/a.log" "./a.log"
    (Some (portion_with data true "42")) st
  = ([ Log INFO (PendingAndMarker true "42");
       Log INFO SegmentTruncated;
       Log INFO (RetryingWith 990) ],
     {| lines := 990; more_data := true; marker := "17";
        sleepcount := 0; chunk := 1; f_contents := "first lines" |},
     Next)
  /\ (retries (trace_of (download_loop args "error/a.log" "./a.log"
                           (repeat (Some (portion_with data true "42")) 3)
                           (initial_session args)))
      <= 91)%nat.
Proof.
  intros args st data.
  pose proof (C10_truncation_retries_bounded args "error/a.log" "./a.log")
    as (Habove & _ & Hbound).
  split.
  - exact (Habove st data true "42" eq_refl eq_refl).
  - exact (proj2 (Hbound (repeat (Some (portion_with data true "42")) 3))).
Defined.

(** ** The floor of the line count *)

(** C2, as it holds: for [0 <= args.lines], every line count the pagination
    loop requests is at most [args.lines] and lies strictly above 10 per cent
    of [args.lines] minus 10; it is at or above 10 per cent of [args.lines]
    when [args.lines] is a multiple of 100; and a pass through the loop body
    leaves the count alone or takes 10 off a count that was above 10 per
    cent of [args.lines]. *)
Theorem C2_requested_lines_near_floor
        (args : Args.t) (logfilename destination : string)
        (replies : list (option Portion)) (n : Z)
        (Hnonneg : 0 <= Args.lines args)
        (Hrequested :
           In n (requested_lines
                   (trace_of (download_loop args logfilename destination
                                replies (initial_session args))))) :
  (Args.lines args - 100 < 10 * n /\ n <= Args.lines args)
  /\ ((100 | Args.lines args) -> Args.lines args <= 10 * n)
  /\ (forall reply st tr st' fl,
         iteration args logfilename destination reply st = (tr, st', fl) ->
         lines st' = lines st
         \/ (Args.lines args < 10 * lines st /\ lines st' = lines st - 10)).
Proof.
  destruct (download_loop args logfilename destination replies
              (initial_session args)) as [[[tr st'] s] rest] eqn:Hrun.
  unfold trace_of in Hrequested. cbn [fst] in Hrequested.
  split; [|split].
  - pose proof (requested_lines_invariant args logfilename destination
                  (fun n => Args.lines args - 100 < 10 * n
                            /\ n <= Args.lines args)) as Hinv.
    cbv beta in Hinv.
    destruct (Hinv) with (3 := Hrun) as [Hall _].
    + intros k [Hlo Hhi] Hfl. unfold above_floor in Hfl.
      apply Z.ltb_lt in Hfl. lia.
    + cbn. lia.
    + rewrite Forall_forall in Hall. apply Hall.
      apply list_elem_of_In. exact Hrequested.
  - intros [q Hq].
    pose proof (requested_lines_invariant args logfilename destination
                  (fun n => Args.lines args <= 10 * n
                            /\ (100 | 10 * n - Args.lines args))) as Hinv.
    cbv beta in Hinv.
    destruct (Hinv) with (3 := Hrun) as [Hall _].
    + intros k [Hlo [d Hd]] Hfl. unfold above_floor in Hfl.
      apply Z.ltb_lt in Hfl. split.
      * lia.
      * exists (d - 1). lia.
    + cbn. split; [lia|]. exists (9 * q). lia.
    + rewrite Forall_forall in Hall.
      apply Hall. apply list_elem_of_In. exact Hrequested.
  - intros reply st0 tr0 st0' fl Hb.
    destruct (iteration_lines _ _ _ _ _ _ _ _ Hb) as [[Hl _]|(Hf & Hl & _)].
    + left. exact Hl.
    + right. unfold above_floor in Hf. apply Z.ltb_lt in Hf. auto.
Qed.

(** C2 at [args.lines = 1000]: after one truncated portion 990 lines are
    requested, above the floor of 100. *)
Lemma C2_witness :
  let args := Args.mk "db1" "./" None 1000 10 in
  (Args.lines args - 100 < 10 * 990 /\ 990 <= Args.lines args)
  /\ Args.lines args <= 10 * 990.
Proof.
  intros args.
  pose proof (C2_requested_lines_near_floor args "error/a.log" "./a.log"
                [ Some (portion_with truncation_notice true "42") ] 990)
    as H.
  destruct H as (Hnear & Hfloor & _).
  - cbn. lia.
  - cbn. right. left. reflexivity.
  - split; [exact Hnear|]. apply Hfloor. exists 10. reflexivity.
Defined.

Example requested_lines_from_50 :
  requested_lines
    (trace_of (download_loop args_50_lines "error/a.log" "./a.log"
                 (repeat (Some (portion_with truncation_notice true "42")) 5)
                 (initial_session args_50_lines)))
  = [50; 40; 30; 20; 10; 0].
Proof. reflexivity. Qed.

(** C2 fails as stated: with [args.lines = 50] a request for 0 lines is
    made, below 10 per cent of 50; the guard in double precision lets the
    count of 10 through as well ([50 * 0.1] is the double 5). *)
Lemma C2_counterexample :
  In 0 (requested_lines
          (trace_of (download_loop args_50_lines "error/a.log" "./a.log"
                       (repeat (Some (portion_with truncation_notice true "42")) 5)
                       (initial_session args_50_lines))))
  /\ 10 * 0 < Args.lines args_50_lines
  /\ above_floor_double args_50_lines 10 = true.
Proof.
  split; [|split].
  - cbn. do 5 right. left. reflexivity.
  - cbn. lia.
  - vm_compute. reflexivity.
Qed.

(** ** The loop over the log files *)

Lemma for_body_download args log fs replies :
  is_downloaded args log fs = true ->
  for_body args log fs replies
  = let '(tr, st, s, rest) :=
      download_loop args (LogFileName log) (destination_of args log) replies
        (initial_session args) in
    (before_open args log fs ++ [ OpenWb (destination_of args log) ] ++ tr
       ++ match s with
          | Finished =>
              if sleepcount st =? Args.backoff args
              then [ Log ERROR (TooManyErrors (LogFileName log)) ] else []
          | _ => []
          end,
     <[destination_of args log := f_contents st]> fs, s, rest).
Proof.
  unfold is_downloaded, for_body, before_open, download.
  intros H. apply andb_true_iff in H as [Hfilter Hsize].
  apply negb_true_iff in Hfilter. rewrite Hfilter.
  destruct (fs !! destination_of args log) as [local|] eqn:Hlocal.
  - apply negb_true_iff in Hsize. rewrite Hsize.
    destruct (download_loop _ _ _ replies _) as [[[tr st] s] rest].
    rewrite insert_delete_eq.
    destruct s; cbn [app]; rewrite ?app_nil_r; reflexivity.
  - destruct (download_loop _ _ _ replies _) as [[[tr st] s] rest].
    destruct s; cbn [app]; rewrite ?app_nil_r; reflexivity.
Qed.

Lemma for_logs_next args log logs fs replies tr fs' rest :
  for_body args log fs replies = (tr, fs', Finished, rest) ->
  for_logs args (log :: logs) fs replies
  = let '(tr', fs'', s', rest') := for_logs args logs fs' rest in
    (tr ++ tr', fs'', s', rest').
Proof. intros H. cbn [for_logs]. rewrite H. reflexivity. Qed.

(** C6: when the pagination loop for a file is left with [sleepcount] at
    [args.backoff], the error naming the file is logged, the destination
    keeps what was written so far, and the loop over the files goes on with
    the next file, the remaining replies and that file system. *)
Theorem C6_exhausted_file_is_left_and_run_goes_on
        (args : Args.t) (log : LogFile) (logs : list LogFile)
        (fs : gmap string string) (replies rest : list (option Portion))
        (tr : list event) (st : Session)
        (Hdownloaded : is_downloaded args log fs = true)
        (Hloop : download_loop args (LogFileName log) (destination_of args log)
                   replies (initial_session args) = (tr, st, Finished, rest))
        (Hexhausted : sleepcount st = Args.backoff args) :
  for_body args log fs replies
  = (before_open args log fs ++ [ OpenWb (destination_of args log) ] ++ tr
       ++ [ Log ERROR (TooManyErrors (LogFileName log)) ],
     <[destination_of args log := f_contents st]> fs, Finished, rest)
  /\ for_logs args (log :: logs) fs replies
     = (let '(tr', fs'', s', rest') :=
          for_logs args logs
            (<[destination_of args log := f_contents st]> fs) rest in
        ((before_open args log fs ++ [ OpenWb (destination_of args log) ]
            ++ tr ++ [ Log ERROR (TooManyErrors (LogFileName log)) ])
           ++ tr',
         fs'', s', rest')).
Proof.
  assert (Hbody : for_body args log fs replies
                  = (before_open args log fs
                       ++ [ OpenWb (destination_of args log) ] ++ tr
                       ++ [ Log ERROR (TooManyErrors (LogFileName log)) ],
                     <[destination_of args log := f_contents st]> fs,
                     Finished, rest)).
  { rewrite for_body_download by assumption. rewrite Hloop.
    rewrite Hexhausted, Z.eqb_refl. reflexivity. }
  split; [exact Hbody|].
  apply for_logs_next. exact Hbody.
Qed.

(** C6 with [args.backoff = 2]: the first file gets one portion and then two
    failures; its destination keeps the portion and the second file is
    fetched. *)
Lemma C6_witness :
  let args := Args.mk "db1" "out" None 1000 2 in
  let '(tr, fs, s, rest) :=
    for_logs args [ mkLogFile "error/a.log" 9; mkLogFile "error/b.log" 3 ] ∅
      [ Some (portion_with "abc" true "3"); None; None;
        Some (portion_with "xyz" false "3") ] in
  In (Log ERROR (TooManyErrors "error/a.log")) tr
  /\ fs !! "out/a.log" = Some "abc"
  /\ fs !! "out/b.log" = Some "xyz"
  /\ s = Finished.
Proof.
  intros args.
  pose proof (C6_exhausted_file_is_left_and_run_goes_on args
                (mkLogFile "error/a.log" 9) [ mkLogFile "error/b.log" 3 ] ∅
                [ Some (portion_with "abc" true "3"); None; None;
                  Some (portion_with "xyz" false "3") ]
                [ Some (portion_with "xyz" false "3") ]
                _ _ eq_refl eq_refl eq_refl) as [_ Hrun].
  rewrite Hrun. vm_compute. repeat split; auto 20.
Defined.

(** C8: a listed file whose destination exists with the listed size is
    passed over, whether the name filter lets it through or not: no request
    is made, no reply is consumed, no file is removed, opened or written,
    the file system is the same afterwards, and the loop goes on with the
    next file. *)
Theorem C8_same_size_is_skipped
        (args : Args.t) (log : LogFile) (logs : list LogFile)
        (fs : gmap string string) (replies : list (option Portion))
        (local : string)
        (Hexists : fs !! destination_of args log = Some local)
        (Hsize : Z.of_nat (String.length local) = Size log) :
  exists tr,
    for_body args log fs replies = (tr, fs, Finished, replies)
    /\ requests tr = []
    /\ existsb touches_files tr = false
    /\ for_logs args (log :: logs) fs replies
       = (let '(tr', fs', s', rest') := for_logs args logs fs replies in
          (tr ++ tr', fs', s', rest')).
Proof.
  assert (Hbody : exists tr,
             for_body args log fs replies = (tr, fs, Finished, replies)
             /\ requests tr = [] /\ existsb touches_files tr = false).
  { unfold for_body. destruct (filtered_out args (LogFileName log)).
    - eexists. split; [reflexivity|]. split; reflexivity.
    - rewrite Hexists, Hsize, Z.eqb_refl.
      eexists. split; [reflexivity|]. split; reflexivity. }
  destruct Hbody as (tr & Hbody & Hreq & Htouch).
  exists tr. repeat split; try assumption.
  apply for_logs_next. exact Hbody.
Qed.

(** C8 on a file of three bytes listed with size 3. *)
Lemma C8_witness :
  let args := Args.mk "db1" "out" None 1000 10 in
  let fs : gmap string string := {[ "out/a.log" := "abc" ]} in
  exists tr,
    for_body args (mkLogFile "error/a.log" 3) fs
      [ Some (portion_with "xyz" false "3") ]
    = (tr, fs, Finished, [ Some (portion_with "xyz" false "3") ])
    /\ requests tr = [].
Proof.
  intros args fs.
  destruct (C8_same_size_is_skipped args (mkLogFile "error/a.log" 3) [] fs
              [ Some (portion_with "xyz" false "3") ] "abc"
              eq_refl eq_refl) as (tr & Hbody & Hreq & _).
  exists tr. split; assumption.
Defined.

(** C7: a listed file that reaches the size test of lines 110-123 (the
    name filter of line 104 lets it through) and whose destination exists
    with another size has the destination removed
    and opened anew, and is fetched by the pagination loop from its initial
    session: marker "0", [args.lines] lines, nothing written yet.  What the
    destination holds afterwards is what that loop wrote, and the first
    request, if the loop is entered, is for marker "0". *)
Theorem C7_other_size_is_fetched_anew
        (args : Args.t) (log : LogFile)
        (fs : gmap string string) (replies : list (option Portion))
        (local : string)
        (Hfilter : filtered_out args (LogFileName log) = false)
        (Hexists : fs !! destination_of args log = Some local)
        (Hsize : Z.of_nat (String.length local) <> Size log) :
  for_body args log fs replies
  = (let '(tr, st, s, rest) :=
       download_loop args (LogFileName log) (destination_of args log) replies
         {| lines := Args.lines args; more_data := true; marker := "0";
            sleepcount := 0; chunk := 0; f_contents := "" |} in
     ([ Log DEBUG (LogEntry log);
        Log INFO (SizeDoesNotMatch (LogFileName log));
        Log INFO (LocalAndExpectedSize (Z.of_nat (String.length local))
                                       (Size log));
        Remove (destination_of args log);
        OpenWb (destination_of args log) ] ++ tr
        ++ match s with
           | Finished =>
               if sleepcount st =? Args.backoff args
               then [ Log ERROR (TooManyErrors (LogFileName log)) ] else []
           | _ => []
           end,
      <[destination_of args log := f_contents st]> fs, s, rest))
  /\ (0 < Args.backoff args ->
      exists more,
        requests (trace_of (for_body args log fs replies))
        = ("0", Args.lines args) :: more).
Proof.
  assert (Hdown : is_downloaded args log fs = true).
  { unfold is_downloaded. rewrite Hfilter, Hexists. cbn.
    apply negb_true_iff. apply Z.eqb_neq. exact Hsize. }
  assert (Hbody := for_body_download args log fs replies Hdown).
  unfold before_open in Hbody. rewrite Hexists in Hbody.
  fold (initial_session args).
  split.
  - rewrite Hbody.
    destruct (download_loop _ _ _ replies _) as [[[tr st] s] rest].
    reflexivity.
  - intros Hbackoff. rewrite Hbody.
    destruct (loop_begins_with_request args (LogFileName log)
                (destination_of args log) replies (initial_session args))
      as [more Hmore].
    { unfold loop_condition. cbn. apply Z.ltb_lt. exact Hbackoff. }
    destruct (download_loop _ _ _ replies _) as [[[tr st] s] rest].
    unfold trace_of in *. cbn [fst] in *. subst tr.
    eexists. read_trace. reflexivity.
Qed.

(** C7 on a file of three bytes listed with size 5. *)
Lemma C7_witness :
  let args := Args.mk "db1" "out" None 1000 10 in
  let fs : gmap string string := {[ "out/a.log" := "abc" ]} in
  exists more,
    requests (trace_of (for_body args (mkLogFile "error/a.log" 5) fs
                          [ Some (portion_with "vwxyz" false "5") ]))
    = ("0", 1000) :: more.
Proof.
  intros args fs.
  refine (proj2 (C7_other_size_is_fetched_anew args
                   (mkLogFile "error/a.log" 5) fs
                   [ Some (portion_with "vwxyz" false "5") ] "abc"
                   eq_refl eq_refl _) _).
  - cbn. lia.
  - cbn. lia.
Defined.

(** The name filter comes first: a file it does not let through is passed
    over before the size test, so its local copy stays as it is. *)
Example filtered_out_file_is_passed_over :
  let args :=
    Args.mk "db1" "out" (Some (String.prefix "error")) 1000 10 in
  let fs : gmap string string := {[ "out/slow.log" := "abc" ]} in
  fs !! destination_of args (mkLogFile "slow.log" 5) = Some "abc"
  /\ Z.of_nat (String.length "abc") <> 5
  /\ for_body args (mkLogFile "slow.log" 5) fs
       [ Some (portion_with "vwxyz" false "5") ]
     = ([ Log DEBUG (LogEntry (mkLogFile "slow.log" 5));
          Log INFO (Skipping "slow.log") ],
        fs, Finished, [ Some (portion_with "vwxyz" false "5") ]).
Proof.
  intros args fs. split; [reflexivity|]. split; [|reflexivity].
  cbn. lia.
Qed.

(** ** Replies with a key missing *)

Section MissingKeys.

Variable args : Args.t.
Variable logfilename destination : string.

(** Without ['LogFileData'] the reply is logged as an error, nothing is
    written and the locals are advanced, but [del result['LogFileData']]
    on line 159 raises. *)
Lemma absent_data_raises st pending m :
  iteration args logfilename destination
    (Some {| LogFileData := None;
             AdditionalDataPending := Some pending;
             Marker := Some m |}) st
  = ([ Log INFO (PendingAndMarker pending m);
       Log ERROR (NoLogFileData logfilename) ],
     {| lines := lines st; more_data := pending; marker := m;
        sleepcount := 0; chunk := chunk st + 1;
        f_contents := f_contents st |},
     Uncaught (KeyError "LogFileData")).
Proof. reflexivity. Qed.

(** With ['LogFileData'] present and [None] the same pass goes through. *)
Lemma none_data_goes_on st pending m :
  iteration args logfilename destination
    (Some {| LogFileData := Some None;
             AdditionalDataPending := Some pending;
             Marker := Some m |}) st
  = ([ Log INFO (PendingAndMarker pending m);
       Log ERROR (NoLogFileData logfilename);
       Log DEBUG (ResultEntry (Some pending) (Some m)) ],
     {| lines := lines st; more_data := pending; marker := m;
        sleepcount := 0; chunk := chunk st + 1;
        f_contents := f_contents st |},
     Next).
Proof. reflexivity. Qed.

(** Without ['AdditionalDataPending'] the log call on line 141 raises
    before the reply is looked at. *)
Lemma absent_pending_raises st result :
  AdditionalDataPending result = None ->
  iteration args logfilename destination (Some result) st
  = ([], set_sleepcount 0 st, Uncaught (KeyError "AdditionalDataPending")).
Proof. intros H. cbn [iteration]. unfold on_result. rewrite H. reflexivity. Qed.

(** Had line 141 been passed, line 155 would read the missing flag as
    [False]. *)
Lemma advance_reads_absent_pending_as_false st result tr st' fl :
  AdditionalDataPending result = None ->
  advance result st = (tr, st', fl) ->
  more_data st' = false.
Proof.
  intros H. unfold advance. rewrite H.
  destruct (Marker result), (LogFileData result);
    intros Hadv; inversion Hadv; reflexivity.
Qed.

End MissingKeys.

(** C1, on the code: the first reply for [error/a.log] has no
    ['LogFileData'] and says that more is pending.  The error is logged and
    nothing is written, but the run ends there with [KeyError]: marker "7" is
    never requested, the two replies left are not consumed and
    [error/b.log] is never looked at. *)
Theorem C1_absent_data_key_ends_the_run :
  _main (Args.mk "db1" "out" None 1000 10) ∅
    [ Some [ mkLogFile "error/a.log" 6; mkLogFile "error/b.log" 3 ] ]
    [ Some {| LogFileData := None;
              AdditionalDataPending := Some true;
              Marker := Some "7" |};
      Some (portion_with "abcdef" false "13");
      Some (portion_with "xyz" false "3") ]
  = ([ DescribeDBLogFiles "db1";
       Log DEBUG (LogEntry (mkLogFile "error/a.log" 6));
       OpenWb "out/a.log";
       Log INFO (Requesting "error/a.log" "0" 0);
       DownloadDBLogFilePortion "db1" "error/a.log" "0" 1000;
       Log INFO (PendingAndMarker true "7");
       Log ERROR (NoLogFileData "error/a.log") ],
     {[ "out/a.log" := "" ]},
     Raised (KeyError "LogFileData"),
     [ Some (portion_with "abcdef" false "13");
       Some (portion_with "xyz" false "3") ]).
Proof. vm_compute. reflexivity. Qed.

(** C3, on the code: the only reply for [error/a.log] has no
    ['AdditionalDataPending'].  The run ends with [KeyError] on line 141,
    before the text of the reply is written. *)
Theorem C3_absent_pending_key_ends_the_run :
  _main (Args.mk "db1" "out" None 1000 10) ∅
    [ Some [ mkLogFile "error/a.log" 3 ] ]
    [ Some {| LogFileData := Some (Some "abc");
              AdditionalDataPending := None;
              Marker := Some "3" |} ]
  = ([ DescribeDBLogFiles "db1";
       Log DEBUG (LogEntry (mkLogFile "error/a.log" 3));
       OpenWb "out/a.log";
       Log INFO (Requesting "error/a.log" "0" 0);
       DownloadDBLogFilePortion "db1" "error/a.log" "0" 1000 ],
     {[ "out/a.log" := "" ]},
     Raised (KeyError "AdditionalDataPending"),
     []).
Proof. vm_compute. reflexivity. Qed.

(** * Further properties of the script *)

(** ** Paths: [os.path.basename] and [os.path.join] *)

Lemma has_slash_cons (c : ascii) (s : string) :
  has_slash (String c s) = Ascii.eqb c "/"%char || has_slash s.
Proof. unfold has_slash. cbn. rewrite Ascii.eqb_sym. reflexivity. Qed.

Lemma has_slash_app (a b : string) :
  has_slash (a +:+ b) = has_slash a || has_slash b.
Proof.
  induction a as [|c a IH]; [reflexivity|].
  change (has_slash (String c (a +:+ b))
          = has_slash (String c a) || has_slash b).
  rewrite !has_slash_cons, IH. apply orb_assoc.
Qed.

Lemma basename_cons (c : ascii) (rest : string) :
  basename (String c rest)
  = if Ascii.eqb c "/"%char || has_slash rest then basename rest
    else String c rest.
Proof.
  cbn [basename]. fold (has_slash rest).
  destruct (Ascii.eqb c "/"%char), (has_slash rest); reflexivity.
Qed.

Lemma basename_without_slash (name : string) :
  has_slash name = false -> basename name = name.
Proof.
  destruct name as [|c rest]; [reflexivity|].
  rewrite has_slash_cons, basename_cons. intros ->. reflexivity.
Qed.

Lemma has_slash_basename (p : string) : has_slash (basename p) = false.
Proof.
  induction p as [|c rest IH]; [reflexivity|].
  rewrite basename_cons.
  destruct (Ascii.eqb c "/"%char || has_slash rest) eqn:H; [exact IH|].
  rewrite has_slash_cons. exact H.
Qed.

Lemma basename_after_slash (dir name : string) :
  basename (dir +:+ "/" +:+ name) = basename name.
Proof.
  induction dir as [|c dir IH].
  - change (basename (String "/" name) = basename name).
    rewrite basename_cons. reflexivity.
  - change (basename (String c (dir +:+ "/" +:+ name)) = basename name).
    rewrite basename_cons, has_slash_app.
    change (has_slash ("/" +:+ name)) with true.
    rewrite !orb_true_r. exact IH.
Qed.

Lemma basename_splits (p : string) :
  exists dir,
    p = dir +:+ basename p /\ (dir = "" \/ exists d, dir = d +:+ "/").
Proof.
  induction p as [|c rest IH].
  - exists "". split; [reflexivity|left; reflexivity].
  - rewrite basename_cons. destruct IH as (dir & Hsplit & Hdir).
    destruct (Ascii.eqb c "/"%char) eqn:Hc; cbn [orb].
    + apply Ascii.eqb_eq in Hc. subst c.
      exists (String "/" dir). split.
      * change (String "/" rest = String "/" (dir +:+ basename rest)).
        f_equal. exact Hsplit.
      * right. destruct Hdir as [->|[d ->]].
        -- exists "". reflexivity.
        -- exists (String "/" d). reflexivity.
    + destruct (has_slash rest) eqn:Hrest.
      * exists (String c dir). split.
        -- change (String c rest = String c (dir +:+ basename rest)).
           f_equal. exact Hsplit.
        -- right. destruct Hdir as [->|[d ->]].
           ++ change (rest = basename rest) in Hsplit.
              rewrite Hsplit, has_slash_basename in Hrest. discriminate.
           ++ exists (String c d). reflexivity.
      * exists "". split; [reflexivity|left; reflexivity].
Qed.

(** X1: [basename] returns the part of a path after its last slash: the
    result holds no slash, and the path is that result behind a directory
    part that is empty or ends with a slash. *)
Theorem X1_basename_is_the_part_after_the_last_slash (p : string) :
  has_slash (basename p) = false
  /\ exists dir,
      p = dir +:+ basename p /\ (dir = "" \/ exists d, dir = d +:+ "/").
Proof. split; [apply has_slash_basename | apply basename_splits]. Qed.

(** X2: whatever directory a remote name puts in front of a slash-free file
    name, the base name is that file name; so two listed files that differ
    only in their directory have the same destination. *)
Theorem X2_directory_of_the_remote_name_is_dropped
        (args : Args.t) (dir dir' name : string) (size size' : Z)
        (Hname : has_slash name = false) :
  basename (dir +:+ "/" +:+ name) = name
  /\ destination_of args (mkLogFile (dir +:+ "/" +:+ name) size)
     = destination_of args (mkLogFile (dir' +:+ "/" +:+ name) size').
Proof.
  split.
  - rewrite basename_after_slash. apply basename_without_slash. exact Hname.
  - unfold destination_of. cbn [LogFileName].
    rewrite !basename_after_slash. reflexivity.
Qed.

Lemma X2_witness :
  basename ("error" +:+ "/" +:+ "mysql.log") = "mysql.log"
  /\ destination_of (Args.mk "db1" "out" None 1000 10)
       (mkLogFile ("error" +:+ "/" +:+ "mysql.log") 5)
     = destination_of (Args.mk "db1" "out" None 1000 10)
         (mkLogFile ("slowquery" +:+ "/" +:+ "mysql.log") 7).
Proof.
  exact (X2_directory_of_the_remote_name_is_dropped
           (Args.mk "db1" "out" None 1000 10) "error" "slowquery" "mysql.log"
           5 7 eq_refl).
Defined.

Lemma prefix_app (a b : string) : String.prefix a (a +:+ b) = true.
Proof.
  induction a as [|c a IH]; [destruct b; reflexivity|].
  change (String.prefix (String c a) (String c (a +:+ b)) = true).
  cbn [String.prefix]. destruct (ascii_dec c c); [exact IH|congruence].
Qed.

Lemma prefix_slash_false (s : string) :
  has_slash s = false -> String.prefix "/" s = false.
Proof.
  destruct s as [|c s]; [reflexivity|].
  rewrite has_slash_cons. intros H. apply orb_false_iff in H as [Hc _].
  cbn [String.prefix]. destruct (ascii_dec "/" c) as [<-|];
    [discriminate|reflexivity].
Qed.

Lemma destination_of_shape (args : Args.t) (log : LogFile) :
  destination_of args log
  = Args.output_dir args
      +:+ (if String.eqb (Args.output_dir args) ""
              || endswith (Args.output_dir args) "/"
           then "" else "/")
      +:+ basename (LogFileName log).
Proof.
  unfold destination_of, join.
  rewrite (prefix_slash_false _ (has_slash_basename (LogFileName log))).
  destruct (String.eqb (Args.output_dir args) ""
            || endswith (Args.output_dir args) "/"); reflexivity.
Qed.

Lemma destination_of_prefix (args : Args.t) (log : LogFile) :
  String.prefix (Args.output_dir args) (destination_of args log) = true.
Proof. rewrite destination_of_shape. apply prefix_app. Qed.

(** X3: the destination of a listed file is [args.output_dir], a slash
    unless [args.output_dir] is empty or ends with one, and the base name
    of the remote name; in particular it starts with [args.output_dir],
    whatever slashes the remote name holds. *)
Theorem X3_destination_is_under_output_dir (args : Args.t) (log : LogFile) :
  destination_of args log
  = Args.output_dir args
      +:+ (if String.eqb (Args.output_dir args) ""
              || endswith (Args.output_dir args) "/"
           then "" else "/")
      +:+ basename (LogFileName log)
  /\ String.prefix (Args.output_dir args) (destination_of args log) = true.
Proof.
  split; [apply destination_of_shape | apply destination_of_prefix].
Qed.

(** ** Text: [str.endswith] and what reaches the file *)

Lemma string_app_cons (c : ascii) (a b : string) :
  String c a +:+ b = String c (a +:+ b).
Proof. reflexivity. Qed.

Lemma string_app_nil_r (a : string) : a +:+ "" = a.
Proof.
  induction a as [|c a IH]; [reflexivity|].
  rewrite string_app_cons, IH. reflexivity.
Qed.

Lemma string_app_assoc (a b c : string) : (a +:+ b) +:+ c = a +:+ b +:+ c.
Proof.
  induction a as [|x a IH]; [reflexivity|].
  rewrite !string_app_cons, IH. reflexivity.
Qed.

Lemma string_length_app (a b : string) :
  String.length (a +:+ b) = (String.length a + String.length b)%nat.
Proof.
  induction a as [|c a IH]; [reflexivity|].
  rewrite string_app_cons. cbn [String.length]. rewrite IH. reflexivity.
Qed.

Lemma substring_all (s : string) : substring 0 (String.length s) s = s.
Proof.
  induction s as [|c s IH]; [reflexivity|].
  cbn [String.length substring]. rewrite IH. reflexivity.
Qed.

Lemma substring_after (a b : string) :
  substring (String.length a) (String.length b) (a +:+ b) = b.
Proof.
  induction a as [|c a IH]; [apply substring_all|].
  rewrite string_app_cons. cbn [String.length substring]. exact IH.
Qed.

Lemma substring_split (s : string) :
  forall n : nat,
    (n <= String.length s)%nat ->
    s = substring 0 n s +:+ substring n (String.length s - n) s.
Proof.
  induction s as [|c s IH]; intros n Hn.
  - cbn in Hn. replace n with 0%nat by lia. reflexivity.
  - destruct n as [|n].
    + cbn [substring String.length Nat.sub]. rewrite substring_all.
      reflexivity.
    + cbn [String.length] in Hn. cbn [substring String.length Nat.sub].
      rewrite string_app_cons. f_equal. apply IH. lia.
Qed.

Lemma endswith_iff (s suffix : string) :
  endswith s suffix = true <-> exists pre, s = pre +:+ suffix.
Proof.
  unfold endswith. split.
  - intros H. apply andb_true_iff in H as [Hle Heq].
    apply Nat.leb_le in Hle. apply String.eqb_eq in Heq.
    exists (substring 0 (String.length s - String.length suffix) s).
    pose proof (substring_split s (String.length s - String.length suffix))
      as Hsplit.
    replace (String.length s - (String.length s - String.length suffix))%nat
      with (String.length suffix) in Hsplit by lia.
    rewrite Heq in Hsplit. apply Hsplit. lia.
  - intros [pre ->]. rewrite string_length_app.
    apply andb_true_iff. split; [apply Nat.leb_le; lia|].
    replace (String.length pre + String.length suffix
             - String.length suffix)%nat
      with (String.length pre) by lia.
    rewrite substring_after. apply String.eqb_refl.
Qed.

Section Written.

Variable args : Args.t.
Variable logfilename destination : string.

Lemma advance_writes result st tr st' fl :
  advance result st = (tr, st', fl) -> writes tr = [].
Proof.
  unfold advance. intros H.
  destruct (LogFileData result), (Marker result); inversion H; reflexivity.
Qed.

(** A pass writes nothing, or the text of the reply and only that. *)
Lemma iteration_writes reply st tr st' fl :
  iteration args logfilename destination reply st = (tr, st', fl) ->
  (writes tr = [] /\ f_contents st' = f_contents st)
  \/ (exists data,
         data_of reply = Some data /\ writes tr = [data]
         /\ f_contents st' = f_contents st +:+ data).
Proof.
  destruct reply as [result|]; cbn [iteration data_of].
  - unfold on_result.
    destruct (AdditionalDataPending result) as [pending|];
      [destruct (Marker result) as [m|];
       [destruct (LogFileData result) as [[data|]|];
        [destruct (endswith data truncation_notice);
         [destruct (above_floor args (lines (set_sleepcount 0 st)))|]
        |..]|]|];
      try (destruct (advance _ _) as [[tr0 st0] fl0] eqn:Hadv;
           pose proof (advance_writes _ _ _ _ _ Hadv) as Hw;
           apply advance_trace in Hadv as (_ & _ & _ & _ & Hf));
      intros H; inversion H; subst;
      unfold writes in *; rewrite ?omap_app; cbn [omap list_omap write_of];
      try rewrite Hw;
      solve [ left; split; [reflexivity | assumption || reflexivity]
            | right; eexists; split; [reflexivity|];
              split; [reflexivity | assumption] ].
  - unfold on_failure. intros H; inversion H; subst. left. split; reflexivity.
Qed.

End Written.

Lemma writes_app (tr1 tr2 : list event) :
  writes (tr1 ++ tr2) = writes tr1 ++ writes tr2.
Proof. unfold writes. apply omap_app. Qed.

Lemma writes_cons (e : event) (tr : list event) :
  writes (e :: tr)
  = match write_of e with Some d => d :: writes tr | None => writes tr end.
Proof. reflexivity. Qed.

Lemma writes_request args logfilename st :
  writes (request args logfilename st) = [].
Proof. reflexivity. Qed.

Ltac read_writes :=
  repeat (progress (cbn [app];
                    rewrite ?writes_cons, ?writes_app, ?writes_request;
                    cbn [write_of])).

Lemma concat_strings_app (l1 l2 : list string) :
  concat_strings (l1 ++ l2) = concat_strings l1 +:+ concat_strings l2.
Proof.
  induction l1 as [|x l1 IH]; [reflexivity|].
  cbn [app concat_strings fold_right]. fold (concat_strings (l1 ++ l2)).
  fold (concat_strings l1). rewrite IH, string_app_assoc. reflexivity.
Qed.

Lemma loop_contents args logfilename destination :
  forall replies st tr st' s rest,
    download_loop args logfilename destination replies st
    = (tr, st', s, rest) ->
    f_contents st' = f_contents st +:+ concat_strings (writes tr).
Proof.
  induction replies as [|reply replies IH]; intros st tr st' s rest Hrun.
  - destruct (loop_condition args st) eqn:Hc.
    + rewrite loop_starved in Hrun by assumption. inversion Hrun; subst.
      cbn. rewrite string_app_nil_r. reflexivity.
    + rewrite loop_left in Hrun by assumption. inversion Hrun; subst.
      cbn. rewrite string_app_nil_r. reflexivity.
  - destruct (loop_condition args st) eqn:Hc.
    + destruct (iteration args logfilename destination reply st)
        as [[tr0 st0] fl] eqn:Hb.
      assert (H0 : f_contents st0
                   = f_contents st +:+ concat_strings (writes tr0)).
      { destruct (iteration_writes _ _ _ _ _ _ _ _ Hb)
          as [[-> ->]|(data & _ & -> & ->)]; cbn;
          rewrite ?string_app_nil_r; reflexivity. }
      destruct fl as [|e].
      * rewrite (loop_next _ _ _ _ _ _ _ _ Hc Hb) in Hrun.
        destruct (download_loop _ _ _ replies st0)
          as [[[tr1 st1] s1] rest1] eqn:Hrest.
        inversion Hrun; subst. apply IH in Hrest.
        rewrite Hrest, H0. read_writes.
        rewrite concat_strings_app, string_app_assoc. reflexivity.
      * rewrite (loop_uncaught _ _ _ _ _ _ _ _ _ Hc Hb) in Hrun.
        inversion Hrun; subst. rewrite H0. read_writes. reflexivity.
    + rewrite loop_left in Hrun by assumption. inversion Hrun; subst.
      cbn. rewrite string_app_nil_r. reflexivity.
Qed.

Lemma loop_writes_received args logfilename destination :
  forall replies st,
    let '(tr, _, _, rest) :=
      download_loop args logfilename destination replies st in
    exists used,
      replies = used ++ rest /\ sublist (writes tr) (omap data_of used).
Proof.
  induction replies as [|reply replies IH]; intros st.
  - destruct (loop_condition args st) eqn:Hc.
    + rewrite loop_starved by assumption. exists []. split; [reflexivity|].
      constructor.
    + rewrite loop_left by assumption. exists []. split; [reflexivity|].
      constructor.
  - destruct (loop_condition args st) eqn:Hc.
    + destruct (iteration args logfilename destination reply st)
        as [[tr0 st0] fl] eqn:Hb.
      assert (H0 : sublist (writes tr0) (omap data_of [reply])).
      { destruct (iteration_writes _ _ _ _ _ _ _ _ Hb)
          as [[-> _]|(data & Hd & -> & _)].
        - apply sublist_nil_l.
        - cbn. rewrite Hd. reflexivity. }
      destruct fl as [|e].
      * rewrite (loop_next _ _ _ _ _ _ _ _ Hc Hb).
        specialize (IH st0).
        destruct (download_loop _ _ _ replies st0) as [[[tr1 st1] s1] rest1].
        destruct IH as (used & -> & Hsub).
        exists (reply :: used). split; [reflexivity|].
        read_writes.
        change (reply :: used) with ([reply] ++ used). rewrite omap_app.
        apply sublist_app; assumption.
      * rewrite (loop_uncaught _ _ _ _ _ _ _ _ _ Hc Hb).
        exists [reply]. split; [reflexivity|].
        read_writes. exact H0.
    + rewrite loop_left by assumption. exists []. split; [reflexivity|].
      constructor.
Qed.

(** X4: a reply that carries text leaves that text out of the file exactly
    when it lacks the pending flag or the marker (line 141 then raises
    before the text is looked at), or the text is some text followed by the
    truncation notice and the line count is still above the floor; in
    every other case the text is written, whole and once. *)
Theorem X4_text_is_dropped_only_when_truncated_above_floor
        (args : Args.t) (logfilename destination : string) (st : Session)
        (result : Portion) (data : string)
        (Hdata : LogFileData result = Some (Some data)) :
  let '(tr, _, _) :=
    iteration args logfilename destination (Some result) st in
  (writes tr = []
   <-> AdditionalDataPending result = None
       \/ Marker result = None
       \/ (above_floor args (lines st) = true
           /\ exists pre, data = pre +:+ truncation_notice))
  /\ (writes tr = [] \/ writes tr = [data]).
Proof.
  destruct result as [d pending m]. cbn in Hdata. subst d.
  unfold iteration, on_result.
  cbn [AdditionalDataPending Marker LogFileData].
  change (lines (set_sleepcount 0 st)) with (lines st).
  pose proof (endswith_iff data truncation_notice) as Hends.
  destruct pending as [pending|]; [destruct m as [m|]|].
  - destruct (endswith data truncation_notice);
      [destruct (above_floor args (lines st))|]; cbn.
    + split; [|left; reflexivity]. split; [|reflexivity].
      intros _. right. right. split; [reflexivity|].
      apply Hends. reflexivity.
    + split; [|right; reflexivity]. split; [discriminate|].
      intros [Habs|[Habs|[Habs _]]]; discriminate.
    + split; [|right; reflexivity]. split; [discriminate|].
      intros [Habs|[Habs|[_ Hpre]]]; try discriminate.
      apply Hends in Hpre. discriminate.
  - cbn. split; [|left; reflexivity]. split; [|reflexivity].
    intros _. right. left. reflexivity.
  - cbn. split; [|left; reflexivity]. split; [|reflexivity].
    intros _. left. reflexivity.
Qed.

Lemma X4_witness :
  let args := Args.mk "db1" "out" None 1000 10 in
  writes (fst (fst (iteration args "error/a.log" "out/a.log"
                      (Some (portion_with ("abc" +:+ truncation_notice)
                                          true "7"))
                      (initial_session args))))
  = []
  /\ writes (fst (fst (iteration args "error/a.log" "out/a.log"
                         (Some {| LogFileData := Some (Some "abc");
                                  AdditionalDataPending := None;
                                  Marker := Some "3" |})
                         (initial_session args))))
     = [].
Proof.
  intros args. split.
  - pose proof (X4_text_is_dropped_only_when_truncated_above_floor args
                  "error/a.log" "out/a.log" (initial_session args)
                  (portion_with ("abc" +:+ truncation_notice) true "7")
                  ("abc" +:+ truncation_notice) eq_refl) as H.
    destruct (iteration args "error/a.log" "out/a.log" _ _) as [[tr st'] fl].
    apply (proj1 H). right. right. split; [reflexivity|].
    exists "abc". reflexivity.
  - pose proof (X4_text_is_dropped_only_when_truncated_above_floor args
                  "error/a.log" "out/a.log" (initial_session args)
                  {| LogFileData := Some (Some "abc");
                     AdditionalDataPending := None;
                     Marker := Some "3" |}
                  "abc" eq_refl) as H.
    destruct (iteration args "error/a.log" "out/a.log" _ _) as [[tr st'] fl].
    apply (proj1 H). left. reflexivity.
Defined.

(** X6: what the loop for a file writes is, in order, text it received:
    the texts written form a subsequence of the texts of the replies
    consumed, so nothing is written twice, out of order or made up. *)
Theorem X6_written_text_was_received_in_that_order
        (args : Args.t) (logfilename destination : string)
        (replies : list (option Portion)) (st : Session) :
  let '(tr, _, _, rest) :=
    download_loop args logfilename destination replies st in
  exists used,
    replies = used ++ rest /\ sublist (writes tr) (omap data_of used).
Proof. apply loop_writes_received. Qed.

(** ** Files: what a run writes and what it leaves alone *)

Section Files.

Variable args : Args.t.

Lemma writes_before_open log fs : writes (before_open args log fs) = [].
Proof.
  unfold before_open. destruct (fs !! destination_of args log); reflexivity.
Qed.

(** The body of the [for] loop, when it fetches: the destination holds the
    texts written, one after the other. *)
Lemma for_body_contents log fs replies tr fs' s rest :
  is_downloaded args log fs = true ->
  for_body args log fs replies = (tr, fs', s, rest) ->
  fs' !! destination_of args log = Some (concat_strings (writes tr))
  /\ forall p, p <> destination_of args log -> fs' !! p = fs !! p.
Proof.
  intros Hdown Hbody. rewrite for_body_download in Hbody by assumption.
  destruct (download_loop _ _ _ replies _) as [[[tr0 st0] s0] rest0] eqn:Hrun.
  apply loop_contents in Hrun. cbn [initial_session f_contents] in Hrun.
  change ("" +:+ concat_strings (writes tr0))
    with (concat_strings (writes tr0)) in Hrun.
  injection Hbody as Htr Hfs Hs Hrest. subst tr fs'. split.
  - rewrite lookup_insert_eq. f_equal. rewrite Hrun.
    rewrite writes_app, writes_before_open. read_writes.
    assert (Htail : forall tail : list event,
               writes tail = [] -> writes tr0 = writes tr0 ++ writes tail).
    { intros tail ->. rewrite app_nil_r. reflexivity. }
    rewrite <- Htail; [reflexivity|].
    destruct s0; [destruct (sleepcount st0 =? Args.backoff args)|..];
      reflexivity.
  - intros p Hp. apply lookup_insert_ne. congruence.
Qed.

(** The body of the [for] loop, when it does not fetch. *)
Lemma for_body_skip log fs replies :
  is_downloaded args log fs = false ->
  exists tr,
    for_body args log fs replies = (tr, fs, Finished, replies)
    /\ requests tr = [] /\ writes tr = [] /\ sleeps tr = [].
Proof.
  unfold is_downloaded, for_body. intros H.
  destruct (filtered_out args (LogFileName log)).
  - eexists. split; [reflexivity|]. repeat split.
  - cbn [negb andb] in H.
    destruct (fs !! destination_of args log) as [local|]; [|discriminate].
    apply negb_false_iff in H. rewrite H.
    eexists. split; [reflexivity|]. repeat split.
Qed.

Lemma for_logs_all_skipped :
  forall logs fs replies,
    Forall (fun log => is_downloaded args log fs = false) logs ->
    exists tr,
      for_logs args logs fs replies = (tr, fs, Finished, replies)
      /\ requests tr = [] /\ writes tr = [] /\ sleeps tr = [].
Proof.
  induction logs as [|log logs IH]; intros fs replies Hall.
  - exists []. repeat split.
  - inversion Hall as [|? ? Hlog Hrest]; subst.
    destruct (for_body_skip log fs replies Hlog)
      as (tr & Hbody & Hq & Hw & Hs).
    destruct (IH fs replies Hrest) as (tr' & Hlogs & Hq' & Hw' & Hs').
    exists (tr ++ tr'). cbn [for_logs]. rewrite Hbody, Hlogs.
    split; [reflexivity|].
    rewrite requests_app, writes_app, sleeps_app, Hq, Hq', Hw, Hw', Hs, Hs'.
    repeat split.
Qed.

End Files.

(** X5: when the body of the [for] loop fetches a file, the destination
    holds afterwards exactly the texts written during that pass, one after
    the other, however the pass ended (loop left, exception, replies used
    up). *)
Theorem X5_destination_holds_the_texts_written
        (args : Args.t) (log : LogFile) (fs : gmap string string)
        (replies : list (option Portion))
        (Hdownloaded : is_downloaded args log fs = true) :
  let '(tr, fs', _, _) := for_body args log fs replies in
  fs' !! destination_of args log = Some (concat_strings (writes tr)).
Proof.
  destruct (for_body args log fs replies) as [[[tr fs'] s] rest] eqn:Hbody.
  apply (for_body_contents args log fs replies tr fs' s rest Hdownloaded Hbody).
Qed.

Lemma X5_witness :
  let args := Args.mk "db1" "out" None 1000 2 in
  let '(tr, fs', s, _) :=
    for_body args (mkLogFile "error/a.log" 9) ∅
      [ Some (portion_with "abc" true "3");
        Some (portion_with "def" true "6"); None; None ] in
  fs' !! "out/a.log" = Some "abcdef" /\ writes tr = [ "abc"; "def" ].
Proof.
  intros args.
  pose proof (X5_destination_holds_the_texts_written args
                (mkLogFile "error/a.log" 9) ∅
                [ Some (portion_with "abc" true "3");
                  Some (portion_with "def" true "6"); None; None ]
                eq_refl) as H.
  destruct (for_body args _ _ _) as [[[tr fs'] s] rest] eqn:Hbody.
  vm_compute in Hbody. injection Hbody as <- <- <- <-.
  split; [exact H | reflexivity].
Defined.

(** X8: when every listed file is filtered out or already there with the
    listed size, the loop over the files asks for no portion, consumes no
    reply, writes nothing, never sleeps and leaves the file system as it
    was. *)
Theorem X8_up_to_date_directory_needs_no_request
        (args : Args.t) (logs : list LogFile) (fs : gmap string string)
        (replies : list (option Portion))
        (Hnone : Forall (fun log => is_downloaded args log fs = false) logs) :
  exists tr,
    for_logs args logs fs replies = (tr, fs, Finished, replies)
    /\ requests tr = [] /\ writes tr = [] /\ sleeps tr = [].
Proof. apply for_logs_all_skipped. exact Hnone. Qed.

Lemma X8_witness :
  let args := Args.mk "db1" "out" (Some (String.prefix "error")) 1000 10 in
  let fs : gmap string string := {[ "out/a.log" := "abc" ]} in
  exists tr,
    for_logs args [ mkLogFile "error/a.log" 3; mkLogFile "slow/b.log" 7 ] fs
      [ Some (portion_with "xyz" false "3") ]
    = (tr, fs, Finished, [ Some (portion_with "xyz" false "3") ])
    /\ requests tr = [] /\ writes tr = [] /\ sleeps tr = [].
Proof.
  intros args fs.
  apply (X8_up_to_date_directory_needs_no_request args).
  repeat constructor.
Defined.

(** X9: the skip test looks at the size only.  Whatever a fetch left at the
    destination, complete or not, a later pass over the same listing entry
    skips the file as soon as the number of bytes written equals the listed
    size. *)
Theorem X9_file_of_the_listed_size_is_skipped_next_time
        (args : Args.t) (log : LogFile) (fs fs' : gmap string string)
        (replies rest replies' : list (option Portion))
        (tr : list event) (s : status)
        (Hdownloaded : is_downloaded args log fs = true)
        (Hfetch : for_body args log fs replies = (tr, fs', s, rest))
        (Hsize : Z.of_nat (String.length (concat_strings (writes tr)))
                 = Size log) :
  for_body args log fs' replies'
  = ([ Log DEBUG (LogEntry log);
       Log INFO (ExistsSkipping (LogFileName log)) ],
     fs', Finished, replies').
Proof.
  destruct (for_body_contents args log fs replies tr fs' s rest
              Hdownloaded Hfetch) as [Hfile _].
  unfold is_downloaded in Hdownloaded.
  apply andb_true_iff in Hdownloaded as [Hfilter _].
  apply negb_true_iff in Hfilter.
  unfold for_body. rewrite Hfilter, Hfile, Hsize, Z.eqb_refl. reflexivity.
Qed.

(** X9 on a fetch that gave up after three of the five bytes of the remote
    file, which the listing (taken earlier) has at three bytes. *)
Lemma X9_witness :
  let args := Args.mk "db1" "out" None 1000 1 in
  let fs' : gmap string string := {[ "out/a.log" := "abc" ]} in
  for_body args (mkLogFile "error/a.log" 3) fs' []
  = ([ Log DEBUG (LogEntry (mkLogFile "error/a.log" 3));
       Log INFO (ExistsSkipping "error/a.log") ],
     fs', Finished, []).
Proof.
  intros args fs'.
  apply (X9_file_of_the_listed_size_is_skipped_next_time args
           (mkLogFile "error/a.log" 3) ∅ fs'
           [ Some (portion_with "abc" true "3"); None ] [] []
           [ Log DEBUG (LogEntry (mkLogFile "error/a.log" 3));
             OpenWb "out/a.log";
             Log INFO (Requesting "error/a.log" "0" 0);
             DownloadDBLogFilePortion "db1" "error/a.log" "0" 1000;
             Log INFO (PendingAndMarker true "3");
             Write "out/a.log" "abc";
             Log DEBUG (ResultEntry (Some true) (Some "3"));
             Log INFO (Requesting "error/a.log" "3" 1);
             DownloadDBLogFilePortion "db1" "error/a.log" "3" 1000;
             Log WARNING (SleepDueToFailure 0 1);
             Sleep 1;
             Log ERROR (TooManyErrors "error/a.log") ]
           Finished);
    reflexivity.
Defined.

(** ** The pagination loop: markers, line counts, replies *)

Section Pagination.

Variable args : Args.t.
Variable logfilename destination : string.

Abbreviation run := (download_loop args logfilename destination).
Abbreviation step := (iteration args logfilename destination).

Lemma advance_marker result st tr st' fl :
  advance result st = (tr, st', fl) ->
  marker st' = match Marker result with Some m => m | None => marker st end.
Proof.
  unfold advance. intros H.
  destruct (Marker result), (LogFileData result); inversion H; reflexivity.
Qed.

(** A pass keeps the marker or takes the one of the reply. *)
Lemma iteration_marker reply st tr st' fl :
  step reply st = (tr, st', fl) ->
  marker st' = marker st \/ marker_of reply = Some (marker st').
Proof.
  destruct reply as [result|]; cbn [iteration marker_of].
  - unfold on_result.
    destruct (AdditionalDataPending result) as [pending|];
      [|intros H; inversion H; left; reflexivity].
    destruct (Marker result) as [m|] eqn:Hm;
      [|intros H; inversion H; left; reflexivity].
    destruct (LogFileData result) as [[data|]|];
      [destruct (endswith data truncation_notice);
       [destruct (above_floor args (lines (set_sleepcount 0 st)))|]|..];
      try (destruct (advance _ _) as [[tr0 st0] fl0] eqn:Hadv;
           apply advance_marker in Hadv; rewrite Hm in Hadv);
      intros H; inversion H; subst; cbn; auto.
    all: right; congruence.
  - unfold on_failure. intros H; inversion H. left. reflexivity.
Qed.

Lemma loop_markers :
  forall replies st,
    let '(tr, _, _, rest) := run replies st in
    exists used,
      replies = used ++ rest
      /\ Forall (fun q => fst q = marker st
                          \/ In (Some (fst q)) (map marker_of used))
                (requests tr).
Proof.
  induction replies as [|reply replies IH]; intros st.
  - destruct (loop_condition args st) eqn:Hc.
    + rewrite loop_starved by assumption. exists []. split; [reflexivity|].
      cbn. constructor; [left; reflexivity|constructor].
    + rewrite loop_left by assumption. exists []. split; [reflexivity|].
      constructor.
  - destruct (loop_condition args st) eqn:Hc.
    + destruct (step reply st) as [[tr0 st0] fl] eqn:Hb.
      pose proof (iteration_requests _ _ _ _ _ _ _ _ Hb) as Hq.
      pose proof (iteration_marker _ _ _ _ _ Hb) as Hm.
      destruct fl as [|e].
      * rewrite (loop_next _ _ _ _ _ _ _ _ Hc Hb).
        specialize (IH st0).
        destruct (run replies st0) as [[[tr1 st1] s1] rest1].
        destruct IH as (used & -> & Hall).
        exists (reply :: used). split; [reflexivity|].
        rewrite !requests_app, Hq. cbn [app requests omap list_omap request
                                        requested_of map].
        constructor; [left; reflexivity|].
        eapply Forall_impl; [exact Hall|].
        intros q [Hq0|Hin]; cbn beta.
        -- destruct Hm as [Hm|Hm].
           ++ left. congruence.
           ++ right. left. congruence.
        -- right. right. exact Hin.
      * rewrite (loop_uncaught _ _ _ _ _ _ _ _ _ Hc Hb).
        exists [reply]. split; [reflexivity|].
        rewrite !requests_app, Hq. cbn.
        constructor; [left; reflexivity|constructor].
    + rewrite loop_left by assumption. exists []. split; [reflexivity|].
      constructor.
Qed.

Lemma loop_requests_counted :
  forall replies st,
    let '(tr, _, s, rest) := run replies st in
    exists used,
      replies = used ++ rest
      /\ length (requests tr)
         = (length used + match s with Starved => 1 | _ => 0 end)%nat.
Proof.
  induction replies as [|reply replies IH]; intros st.
  - destruct (loop_condition args st) eqn:Hc.
    + rewrite loop_starved by assumption. exists []. split; reflexivity.
    + rewrite loop_left by assumption. exists []. split; reflexivity.
  - destruct (loop_condition args st) eqn:Hc.
    + destruct (step reply st) as [[tr0 st0] fl] eqn:Hb.
      pose proof (iteration_requests _ _ _ _ _ _ _ _ Hb) as Hq.
      destruct fl as [|e].
      * rewrite (loop_next _ _ _ _ _ _ _ _ Hc Hb).
        specialize (IH st0).
        destruct (run replies st0) as [[[tr1 st1] s1] rest1].
        destruct IH as (used & -> & Hlen).
        exists (reply :: used). split; [reflexivity|].
        rewrite !requests_app, Hq. cbn. rewrite Hlen. reflexivity.
      * rewrite (loop_uncaught _ _ _ _ _ _ _ _ _ Hc Hb).
        exists [reply]. split; [reflexivity|].
        rewrite !requests_app, Hq. reflexivity.
    + rewrite loop_left by assumption. exists []. split; reflexivity.
Qed.

(** Every line count requested from [st] on is at most [lines st]. *)
Lemma loop_lines_bounded replies st tr st' s rest :
  run replies st = (tr, st', s, rest) ->
  Forall (fun n => n <= lines st) (requested_lines tr).
Proof.
  intros Hrun.
  apply (requested_lines_invariant args logfilename destination
           (fun n => n <= lines st)) with (3 := Hrun).
  - intros n Hn _. lia.
  - lia.
Qed.

Lemma loop_lines_sorted :
  forall replies st,
    StronglySorted (fun a b => b <= a) (requested_lines (trace_of (run replies st))).
Proof.
  induction replies as [|reply replies IH]; intros st.
  - destruct (loop_condition args st) eqn:Hc.
    + rewrite loop_starved by assumption. cbn. repeat constructor.
    + rewrite loop_left by assumption. constructor.
  - destruct (loop_condition args st) eqn:Hc.
    + destruct (step reply st) as [[tr0 st0] fl] eqn:Hb.
      pose proof (iteration_requests _ _ _ _ _ _ _ _ Hb) as Hq.
      destruct fl as [|e].
      * rewrite (loop_next _ _ _ _ _ _ _ _ Hc Hb).
        specialize (IH st0).
        destruct (run replies st0) as [[[tr1 st1] s1] rest1] eqn:Hrest.
        unfold trace_of in *. cbn [fst] in *.
        unfold requested_lines in *.
        rewrite !requests_app, Hq. cbn [app requests omap list_omap request
                                        requested_of map snd].
        constructor; [exact IH|].
        pose proof (loop_lines_bounded _ _ _ _ _ _ Hrest) as Hle.
        unfold requested_lines in Hle.
        eapply Forall_impl; [exact Hle|]. cbn beta. intros n Hn.
        destruct (iteration_lines _ _ _ _ _ _ _ _ Hb)
          as [[Hl _]|(_ & Hl & _)]; lia.
      * rewrite (loop_uncaught _ _ _ _ _ _ _ _ _ Hc Hb).
        unfold trace_of, requested_lines. cbn [fst].
        rewrite !requests_app, Hq. cbn. repeat constructor.
    + rewrite loop_left by assumption. constructor.
Qed.

(** The replies consumed end with exactly as many failures as [sleepcount]
    says, counted from the last call that returned (or from [sleepcount st]
    when none did): what precedes those failures is empty or ends with a
    call that returned. *)
Lemma loop_trailing_failures :
  forall replies st,
    let '(_, st', _, rest) := run replies st in
    exists pre (k : nat),
      replies = pre ++ repeat None k ++ rest
      /\ ((sleepcount st' = Z.of_nat k
           /\ exists pre' result, pre = pre' ++ [ Some result ])
          \/ (pre = [] /\ sleepcount st' = sleepcount st + Z.of_nat k)).
Proof.
  induction replies as [|reply replies IH]; intros st.
  - destruct (loop_condition args st) eqn:Hc.
    + rewrite loop_starved by assumption. exists [], 0%nat.
      split; [reflexivity|]. right. split; [reflexivity|cbn; lia].
    + rewrite loop_left by assumption. exists [], 0%nat.
      split; [reflexivity|]. right. split; [reflexivity|cbn; lia].
  - destruct (loop_condition args st) eqn:Hc.
    + destruct (step reply st) as [[tr0 st0] fl] eqn:Hb.
      pose proof (iteration_sleeps _ _ _ _ _ _ _ _ Hb) as Hs.
      destruct fl as [|e].
      * rewrite (loop_next _ _ _ _ _ _ _ _ Hc Hb).
        specialize (IH st0).
        destruct (run replies st0) as [[[tr1 st1] s1] rest1].
        destruct IH as (pre & k & -> & Hk).
        destruct reply as [result|]; destruct Hs as [_ Hsc].
        -- destruct Hk as [[Hk (pre' & r & ->)]|[-> Hk]].
           ++ exists (Some result :: pre' ++ [ Some r ]), k.
              split; [reflexivity|]. left. split; [exact Hk|].
              exists (Some result :: pre'), r. reflexivity.
           ++ exists [ Some result ], k. split; [reflexivity|].
              left. split; [lia|]. exists [], result. reflexivity.
        -- destruct Hk as [[Hk (pre' & r & ->)]|[-> Hk]].
           ++ exists (None :: pre' ++ [ Some r ]), k.
              split; [reflexivity|]. left. split; [exact Hk|].
              exists (None :: pre'), r. reflexivity.
           ++ exists [], (S k). split; [reflexivity|].
              right. split; [reflexivity|lia].
      * rewrite (loop_uncaught _ _ _ _ _ _ _ _ _ Hc Hb).
        destruct reply as [result|]; destruct Hs as [_ Hsc].
        -- exists [ Some result ], 0%nat. split; [reflexivity|].
           left. split; [cbn; exact Hsc|]. exists [], result. reflexivity.
        -- exists [], 1%nat. split; [reflexivity|].
           right. split; [reflexivity|lia].
    + rewrite loop_left by assumption. exists [], 0%nat.
      split; [reflexivity|]. right. split; [reflexivity|cbn; lia].
Qed.

Lemma loop_finished_condition :
  forall replies st tr st' rest,
    run replies st = (tr, st', Finished, rest) ->
    loop_condition args st' = false.
Proof.
  induction replies as [|reply replies IH]; intros st tr st' rest Hrun.
  - destruct (loop_condition args st) eqn:Hc.
    + rewrite loop_starved in Hrun by assumption. discriminate.
    + rewrite loop_left in Hrun by assumption. congruence.
  - destruct (loop_condition args st) eqn:Hc.
    + destruct (step reply st) as [[tr0 st0] fl] eqn:Hb.
      destruct fl as [|e].
      * rewrite (loop_next _ _ _ _ _ _ _ _ Hc Hb) in Hrun.
        destruct (run replies st0) as [[[tr1 st1] s1] rest1] eqn:Hrest.
        inversion Hrun; subst. eapply IH. exact Hrest.
      * rewrite (loop_uncaught _ _ _ _ _ _ _ _ _ Hc Hb) in Hrun.
        discriminate.
    + rewrite loop_left in Hrun by assumption. congruence.
Qed.

End Pagination.

(** X10: the marker of every portion request is "0" or a marker that a
    reply consumed by this loop carried; the script never makes one up. *)
Theorem X10_requested_markers_come_from_the_service
        (args : Args.t) (logfilename destination : string)
        (replies : list (option Portion)) :
  let '(tr, _, _, rest) :=
    download_loop args logfilename destination replies
      (initial_session args) in
  exists used,
    replies = used ++ rest
    /\ Forall (fun q => fst q = "0" \/ In (Some (fst q)) (map marker_of used))
              (requests tr).
Proof. apply (loop_markers args logfilename destination). Qed.

(** X11: while a file is fetched the requested line count never goes up
    again: the line counts of the requests, in order, are non-increasing,
    also across failures and across portions that were written. *)
Theorem X11_requested_line_counts_never_increase
        (args : Args.t) (logfilename destination : string)
        (replies : list (option Portion)) (st : Session) :
  StronglySorted (fun a b => b <= a)
    (requested_lines
       (trace_of (download_loop args logfilename destination replies st))).
Proof. apply loop_lines_sorted. Qed.

(** X13: when the loop for a file is left, [sleepcount] is exactly the
    number of failures at the end of the replies it consumed: those replies
    are some replies that are none at all or end with a call that
    returned, followed by [sleepcount] failures.  And a loop left by its
    condition was told that nothing is pending or has [sleepcount] at
    [args.backoff] or beyond.  So a file is given up only after that many
    failures in a row, with no reply in between. *)
Theorem X13_loop_is_left_after_the_last_page_or_failures_in_a_row
        (args : Args.t) (logfilename destination : string)
        (replies : list (option Portion)) :
  let '(_, st', s, rest) :=
    download_loop args logfilename destination replies
      (initial_session args) in
  (exists pre (k : nat),
      sleepcount st' = Z.of_nat k
      /\ replies = pre ++ repeat None k ++ rest
      /\ (pre = [] \/ exists pre' result, pre = pre' ++ [ Some result ]))
  /\ match s with
     | Finished =>
         more_data st' = false \/ Args.backoff args <= sleepcount st'
     | _ => True
     end.
Proof.
  pose proof (loop_trailing_failures args logfilename destination replies
                (initial_session args)) as Htrail.
  destruct (download_loop args logfilename destination replies
              (initial_session args)) as [[[tr st'] s] rest] eqn:Hrun.
  split.
  - destruct Htrail as (pre & k & Hsplit & Hk).
    exists pre, k. cbn [initial_session sleepcount] in Hk.
    destruct Hk as [[Hk Hpre]|[Hpre Hk]].
    + split; [exact Hk|]. split; [exact Hsplit|]. right. exact Hpre.
    + split; [lia|]. split; [exact Hsplit|]. left. exact Hpre.
  - destruct s; [|exact I..].
    apply loop_finished_condition in Hrun. unfold loop_condition in Hrun.
    apply andb_false_iff in Hrun as [Hmore|Hlt]; [left; exact Hmore|].
    right. apply Z.ltb_ge. exact Hlt.
Qed.

(** X14: the loop makes one request per reply it consumes, and one more
    when the replies ran out while it was waiting; no reply is consumed
    without a request and none is asked for twice. *)
Theorem X14_one_request_per_reply
        (args : Args.t) (logfilename destination : string)
        (replies : list (option Portion)) (st : Session) :
  let '(tr, _, s, rest) :=
    download_loop args logfilename destination replies st in
  exists used,
    replies = used ++ rest
    /\ length (requests tr)
       = (length used + match s with Starved => 1 | _ => 0 end)%nat.
Proof. apply loop_requests_counted. Qed.

(** ** Sleeping *)

Section Sleeping.

Variable args : Args.t.

Lemma sleeptime_bounded (k : Z) :
  0 <= k < Args.backoff args ->
  1 <= 2 ^ k /\ 2 * 2 ^ k <= 2 ^ Args.backoff args.
Proof.
  intros Hk. split.
  - pose proof (Z.pow_pos_nonneg 2 k). lia.
  - rewrite <- Z.pow_succ_r by lia. apply Z.pow_le_mono_r; lia.
Qed.

Lemma describe_loop_sleeps_bounded :
  forall replies start,
    0 <= start ->
    let '(tr, _, _, _, _) := describe_loop args replies start in
    Forall (fun t => 1 <= t /\ 2 * t <= 2 ^ Args.backoff args) (sleeps tr).
Proof.
  induction replies as [|[response|] replies IH]; intros start Hstart;
    cbn [describe_loop]; destruct (start <? Args.backoff args) eqn:Hlt;
    try (cbn; constructor).
  apply Z.ltb_lt in Hlt. specialize (IH (start + 1)).
  destruct (describe_loop args replies (start + 1))
    as [[[[tr sc] resp] s] rest].
  read_trace. constructor.
  - apply sleeptime_bounded. lia.
  - apply IH. lia.
Qed.

Lemma loop_sleeps_bounded logfilename destination :
  forall replies st,
    0 <= sleepcount st ->
    Forall (fun t => 1 <= t /\ 2 * t <= 2 ^ Args.backoff args)
           (sleeps (trace_of (download_loop args logfilename destination
                                replies st))).
Proof.
  induction replies as [|reply replies IH]; intros st Hsc.
  - destruct (loop_condition args st) eqn:Hc.
    + rewrite loop_starved by assumption. constructor.
    + rewrite loop_left by assumption. constructor.
  - destruct (loop_condition args st) eqn:Hc.
    + destruct (iteration args logfilename destination reply st)
        as [[tr0 st0] fl] eqn:Hb.
      pose proof (iteration_sleeps _ _ _ _ _ _ _ _ Hb) as Hs.
      assert (Hlt : sleepcount st < Args.backoff args).
      { unfold loop_condition in Hc. apply andb_true_iff in Hc as [_ Hc].
        apply Z.ltb_lt. exact Hc. }
      assert (H0 : Forall (fun t => 1 <= t /\ 2 * t <= 2 ^ Args.backoff args)
                          (sleeps tr0) /\ 0 <= sleepcount st0).
      { destruct reply; destruct Hs as [-> ->]; split; try lia.
        - constructor.
        - constructor; [apply sleeptime_bounded; lia|constructor]. }
      destruct H0 as [H0 Hsc0].
      destruct fl as [|e].
      * rewrite (loop_next _ _ _ _ _ _ _ _ Hc Hb).
        specialize (IH st0 Hsc0).
        destruct (download_loop _ _ _ replies st0) as [[[tr1 st1] s1] rest1].
        unfold trace_of in *. cbn [fst] in *.
        rewrite !sleeps_app. change (sleeps (request _ _ _)) with (@nil Z).
        cbn [app]. apply Forall_app. split; assumption.
      * rewrite (loop_uncaught _ _ _ _ _ _ _ _ _ Hc Hb).
        unfold trace_of. cbn [fst].
        rewrite !sleeps_app. exact H0.
    + rewrite loop_left by assumption. constructor.
Qed.

Lemma sleeps_before_open log fs : sleeps (before_open args log fs) = [].
Proof.
  unfold before_open. destruct (fs !! destination_of args log); reflexivity.
Qed.

Lemma for_body_sleeps_bounded log fs replies :
  Forall (fun t => 1 <= t /\ 2 * t <= 2 ^ Args.backoff args)
         (sleeps (trace_of (for_body args log fs replies))).
Proof.
  destruct (is_downloaded args log fs) eqn:Hdown.
  - rewrite for_body_download by assumption.
    pose proof (loop_sleeps_bounded (LogFileName log)
                  (destination_of args log) replies (initial_session args))
      as Hloop.
    destruct (download_loop _ _ _ replies _) as [[[tr st] s] rest].
    unfold trace_of in *. cbn [fst] in *.
    rewrite !sleeps_app, sleeps_before_open.
    change (sleeps [ OpenWb (destination_of args log) ]) with (@nil Z).
    cbn [app]. apply Forall_app. split.
    + apply Hloop. cbn. lia.
    + destruct s; [destruct (sleepcount st =? Args.backoff args)|..];
        constructor.
  - destruct (for_body_skip args log fs replies Hdown) as (tr & -> & _ & _ & Hs).
    unfold trace_of. cbn [fst]. rewrite Hs. constructor.
Qed.

Lemma for_logs_sleeps_bounded :
  forall logs fs replies,
    Forall (fun t => 1 <= t /\ 2 * t <= 2 ^ Args.backoff args)
           (sleeps (trace_of (for_logs args logs fs replies))).
Proof.
  induction logs as [|log logs IH]; intros fs replies; [constructor|].
  cbn [for_logs].
  pose proof (for_body_sleeps_bounded log fs replies) as Hbody.
  destruct (for_body args log fs replies) as [[[tr fs'] s] rest].
  destruct s; try exact Hbody.
  specialize (IH fs' rest).
  destruct (for_logs args logs fs' rest) as [[[tr' fs''] s'] rest'].
  unfold trace_of in *. cbn [fst] in *.
  rewrite sleeps_app. apply Forall_app. split; assumption.
Qed.

Lemma main_sleeps_bounded fs listings portions :
  Forall (fun t => 1 <= t /\ 2 * t <= 2 ^ Args.backoff args)
         (sleeps (trace_of (_main args fs listings portions))).
Proof.
  unfold _main.
  pose proof (describe_loop_sleeps_bounded listings 0 (Z.le_refl 0)) as Hd.
  destruct (describe_loop args listings 0) as [[[[tr sc] response] s] rest].
  destruct s; try exact Hd.
  destruct (sc =? Args.backoff args).
  - unfold trace_of. cbn [fst]. rewrite sleeps_app.
    apply Forall_app. split; [exact Hd|constructor].
  - destruct response as [logs|]; [|exact Hd].
    pose proof (for_logs_sleeps_bounded logs fs portions) as Hl.
    destruct (for_logs args logs fs portions) as [[[tr' fs'] s'] rest'].
    unfold trace_of in *. cbn [fst] in *. rewrite sleeps_app.
    apply Forall_app. split; assumption.
Qed.

Lemma total_app (l1 l2 : list Z) : total (l1 ++ l2) = total l1 + total l2.
Proof.
  induction l1 as [|x l1 IH]; [reflexivity|].
  cbn [app total fold_right]. fold (total (l1 ++ l2)). fold (total l1).
  rewrite IH. ring.
Qed.

Lemma total_sleeps_failed_attempts (call : list event) (k : nat) :
  sleeps call = [] ->
  forall start,
    0 <= start ->
    total (sleeps (failed_attempts call start k))
    = 2 ^ (start + Z.of_nat k) - 2 ^ start.
Proof.
  intros Hcall. induction k as [|k IH]; intros start Hstart.
  - cbn [failed_attempts Z.of_nat]. rewrite Z.add_0_r. cbn. ring.
  - assert (Hpair : forall w t, sleeps [ Log WARNING w; Sleep t ] = [ t ])
      by reflexivity.
    cbn [failed_attempts].
    rewrite !sleeps_app, !total_app, Hcall, Hpair, IH by lia.
    unfold sleeptime_of. cbn [total fold_right].
    replace (start + Z.of_nat (S k)) with (start + 1 + Z.of_nat k) by lia.
    rewrite (Z.pow_add_r 2 start 1) by lia. change (2 ^ 1) with 2. ring.
Qed.

Lemma describe_calls_bounded :
  forall replies start,
    let '(tr, _, _, _, _) := describe_loop args replies start in
    (describe_calls tr <= Z.to_nat (Args.backoff args - start))%nat.
Proof.
  induction replies as [|[response|] replies IH]; intros start;
    cbn [describe_loop]; destruct (start <? Args.backoff args) eqn:Hlt;
    try (cbn; lia);
    apply Z.ltb_lt in Hlt; try (cbn; lia).
  specialize (IH (start + 1)).
  destruct (describe_loop args replies (start + 1))
    as [[[[tr sc] resp] s] rest].
  unfold describe_calls in *. cbn [app List.filter is_describe length].
  replace (Z.to_nat (Args.backoff args - start))
    with (S (Z.to_nat (Args.backoff args - (start + 1)))) by lia.
  lia.
Qed.

End Sleeping.

(** X12: no single sleep of a run is longer than [2 ^ (args.backoff - 1)]:
    every sleep, in the listing loop and in the loop of every file, lasts
    at least 1 and at most half of [2 ^ args.backoff] time units. *)
Theorem X12_every_sleep_is_at_most_half_of_two_to_the_backoff
        (args : Args.t) (fs : gmap string string)
        (listings : list (option (list LogFile)))
        (portions : list (option Portion)) :
  Forall (fun t => 1 <= t /\ 2 * t <= 2 ^ Args.backoff args)
         (sleeps (trace_of (_main args fs listings portions))).
Proof. apply main_sleeps_bounded. Qed.

(** X16: with a negative [args.backoff] neither loop condition ever holds:
    the listing is never asked for, no error is logged, and the run ends at
    line 99 with [response] unbound. *)
Theorem X16_negative_backoff_ends_with_unbound_response
        (args : Args.t) (fs : gmap string string)
        (listings : list (option (list LogFile)))
        (portions : list (option Portion))
        (Hnegative : Args.backoff args < 0) :
  _main args fs listings portions
  = ([], fs, Raised (NameError "response"), portions).
Proof.
  unfold _main.
  assert (Hlt : (0 <? Args.backoff args) = false) by (apply Z.ltb_ge; lia).
  assert (Hne : (0 =? Args.backoff args) = false) by (apply Z.eqb_neq; lia).
  destruct listings as [|[response|] listings]; cbn [describe_loop];
    rewrite Hlt, Hne; reflexivity.
Qed.

Lemma X16_witness :
  _main (Args.mk "db1" "out" None 1000 (-1)) ∅
    [ Some [ mkLogFile "error/a.log" 3 ] ]
    [ Some (portion_with "abc" false "3") ]
  = ([], ∅, Raised (NameError "response"),
     [ Some (portion_with "abc" false "3") ]).
Proof.
  apply X16_negative_backoff_ends_with_unbound_response. cbn. lia.
Defined.

(** X17: an operation that is given up has been slept on for
    [2 ^ args.backoff - 1] time units in all: that is what a run sleeps
    when the listing fails [args.backoff] times, and what the loop of a
    file sleeps over [args.backoff] failures in a row. *)
Theorem X17_giving_up_takes_two_to_the_backoff_minus_one
        (args : Args.t) (N : nat)
        (HN : Args.backoff args = Z.of_nat N) :
  (forall fs listings portions,
      total (sleeps (trace_of (_main args fs (repeat None N ++ listings)
                                 portions)))
      = 2 ^ Args.backoff args - 1)
  /\ (forall logfilename destination rest st,
         more_data st = true ->
         sleepcount st = 0 ->
         total (sleeps (trace_of (download_loop args logfilename destination
                                    (repeat None N ++ rest) st)))
         = 2 ^ Args.backoff args - 1).
Proof.
  split.
  - intros fs listings portions.
    rewrite main_listing_exhausted by assumption.
    unfold trace_of. cbn [fst]. rewrite sleeps_app, total_app.
    rewrite total_sleeps_failed_attempts by (reflexivity || lia).
    rewrite HN, Z.add_0_l.
    change (2 ^ Z.of_nat N - 1 + 0 = 2 ^ Z.of_nat N - 1). ring.
  - intros logfilename destination rest st Hmore Hsc.
    rewrite loop_portion_exhausted by assumption.
    unfold trace_of. cbn [fst].
    rewrite total_sleeps_failed_attempts by (reflexivity || lia).
    rewrite HN, Z.add_0_l. reflexivity.
Qed.

Lemma X17_witness :
  total (sleeps (trace_of (_main (Args.mk "db1" "out" None 1000 10) ∅
                             (repeat None 10 ++ [ Some [] ]) [])))
  = 1023.
Proof.
  exact (proj1 (X17_giving_up_takes_two_to_the_backoff_minus_one
                  (Args.mk "db1" "out" None 1000 10) 10 eq_refl)
           ∅ [ Some [] ] []).
Defined.

(** X18: the listing is asked for at most [args.backoff] times, however
    many failures the service has in store. *)
Theorem X18_listing_is_tried_at_most_backoff_times
        (args : Args.t) (replies : list (option (list LogFile))) :
  let '(tr, _, _, _, _) := describe_loop args replies 0 in
  (describe_calls tr <= Z.to_nat (Args.backoff args))%nat.
Proof.
  pose proof (describe_calls_bounded args replies 0) as H.
  destruct (describe_loop args replies 0) as [[[[tr sc] resp] s] rest].
  rewrite Z.sub_0_r in H. exact H.
Qed.

(** ** A file handed out page by page *)

Section Pages.

Variable args : Args.t.
Variable logfilename destination : string.

(** Lines 140-160 on a reply whose text does not end with the notice. *)
Lemma plain_portion_written st data pending m :
  endswith data truncation_notice = false ->
  iteration args logfilename destination
    (Some (portion_with data pending m)) st
  = ([ Log INFO (PendingAndMarker pending m);
       Write destination data;
       Log DEBUG (ResultEntry (Some pending) (Some m)) ],
     {| lines := lines st; more_data := pending; marker := m;
        sleepcount := 0; chunk := chunk st + 1;
        f_contents := f_contents st +:+ data |},
     Next).
Proof.
  intros Hplain. unfold iteration, on_result, portion_with.
  cbn [AdditionalDataPending Marker LogFileData].
  rewrite Hplain. reflexivity.
Qed.

Lemma loop_pages (last : string * string) (rest : list (option Portion)) :
  0 < Args.backoff args ->
  endswith (fst last) truncation_notice = false ->
  forall ps st,
    more_data st = true ->
    sleepcount st = 0 ->
    Forall (fun p => endswith (fst p) truncation_notice = false) ps ->
    exists tr,
      download_loop args logfilename destination (pages ps last ++ rest) st
      = (tr,
         {| lines := lines st; more_data := false; marker := snd last;
            sleepcount := 0;
            chunk := chunk st + Z.of_nat (length ps) + 1;
            f_contents :=
              f_contents st +:+ concat_strings (map fst ps ++ [ fst last ]) |},
         Finished, rest)
      /\ requests tr
         = (marker st, lines st) :: map (fun p => (snd p, lines st)) ps
      /\ writes tr = map fst ps ++ [ fst last ]
      /\ sleeps tr = [].
Proof.
  intros Hbackoff Hlast.
  induction ps as [|p ps IH]; intros st Hmore Hsc Hplain.
  - assert (Hc : loop_condition args st = true).
    { unfold loop_condition. rewrite Hmore, Hsc. apply Z.ltb_lt. lia. }
    unfold pages. cbn [map app].
    rewrite (loop_next _ _ _ _ _ _ _ _ Hc
               (plain_portion_written st _ false _ Hlast)).
    rewrite loop_left by reflexivity.
    eexists. split; [|split; [|split]].
    + cbn [length Z.of_nat map app concat_strings fold_right].
      rewrite Z.add_0_r, string_app_nil_r. reflexivity.
    + reflexivity.
    + reflexivity.
    + reflexivity.
  - inversion Hplain as [|? ? Hp Hps]; subst.
    assert (Hc : loop_condition args st = true).
    { unfold loop_condition. rewrite Hmore, Hsc. apply Z.ltb_lt. lia. }
    unfold pages in *. cbn [map app].
    rewrite (loop_next _ _ _ _ _ _ _ _ Hc
               (plain_portion_written st _ true _ Hp)).
    edestruct IH as (tr & -> & Hq & Hw & Hs);
      [| |exact Hps|]; [reflexivity|reflexivity|].
    cbn [lines chunk f_contents marker] in *.
    eexists. split; [|split; [|split]].
    + replace (chunk st + 1 + Z.of_nat (length ps) + 1)
        with (chunk st + Z.of_nat (length (p :: ps)) + 1)
        by (cbn [length]; lia).
      replace ((f_contents st +:+ fst p)
                 +:+ concat_strings (map fst ps ++ [ fst last ]))
        with (f_contents st
                +:+ concat_strings (map fst (p :: ps) ++ [ fst last ]))
        by (cbn [map app concat_strings fold_right];
            rewrite string_app_assoc; reflexivity).
      reflexivity.
    + read_trace. rewrite Hq. reflexivity.
    + read_writes. rewrite Hw. reflexivity.
    + read_trace. rewrite Hs. reflexivity.
Qed.

End Pages.

Lemma requests_before_open args log fs :
  requests (before_open args log fs) = [].
Proof.
  unfold before_open. destruct (fs !! destination_of args log); reflexivity.
Qed.

(** X15: when the service hands out a file page by page, with no failure
    and no page ending with the truncation notice, the body of the [for]
    loop asks for marker "0" and then for the marker of each page but the
    last, always with [args.lines] lines, never sleeps, consumes exactly
    the pages, and leaves at the destination the texts of the pages one
    after the other. *)
Theorem X15_pages_are_concatenated_at_the_destination
        (args : Args.t) (log : LogFile) (fs : gmap string string)
        (ps : list (string * string)) (last : string * string)
        (rest : list (option Portion))
        (Hdownloaded : is_downloaded args log fs = true)
        (Hbackoff : 0 < Args.backoff args)
        (Hplain : Forall (fun p => endswith (fst p) truncation_notice = false)
                         ps)
        (Hlast : endswith (fst last) truncation_notice = false) :
  exists tr,
    for_body args log fs (pages ps last ++ rest)
    = (tr,
       <[destination_of args log
         := concat_strings (map fst ps ++ [ fst last ])]> fs,
       Finished, rest)
    /\ requests tr
       = ("0", Args.lines args)
           :: map (fun p => (snd p, Args.lines args)) ps
    /\ writes tr = map fst ps ++ [ fst last ]
    /\ sleeps tr = [].
Proof.
  destruct (loop_pages args (LogFileName log) (destination_of args log)
              last rest Hbackoff Hlast ps (initial_session args)
              eq_refl eq_refl Hplain) as (tr & Hrun & Hq & Hw & Hs).
  rewrite for_body_download by assumption. rewrite Hrun.
  cbn [sleepcount f_contents initial_session].
  replace (0 =? Args.backoff args) with false
    by (symmetry; apply Z.eqb_neq; lia).
  eexists. split; [reflexivity|]. split; [|split].
  - rewrite requests_app, requests_before_open. read_trace.
    rewrite Hq, app_nil_r. reflexivity.
  - rewrite writes_app, writes_before_open. read_writes.
    rewrite Hw, app_nil_r. reflexivity.
  - rewrite sleeps_app, sleeps_before_open. read_trace.
    rewrite Hs. reflexivity.
Qed.

Lemma X15_witness :
  let args := Args.mk "db1" "out" None 1000 10 in
  exists tr,
    for_body args (mkLogFile "error/a.log" 6) ∅
      (pages [ ("abc", "3") ] ("def", "6") ++ [])
    = (tr, <["out/a.log" := "abcdef"]> ∅, Finished, [])
    /\ requests tr = [ ("0", 1000); ("3", 1000) ]
    /\ writes tr = [ "abc"; "def" ]
    /\ sleeps tr = [].
Proof.
  intros args.
  apply (X15_pages_are_concatenated_at_the_destination args
           (mkLogFile "error/a.log" 6) ∅ [ ("abc", "3") ] ("def", "6") []).
  - reflexivity.
  - cbn. lia.
  - repeat constructor.
  - reflexivity.
Defined.

(** ** The guard of line 146 in double precision *)

(** X19: for [args.lines] between -10000 and 10000 the guard
    [lines > args.lines * 0.1], with the product rounded to a double as
    Python computes it, holds exactly when [10 * lines > args.lines]: in
    that range the rounding of [args.lines * 0.1] never changes which
    line counts pass. *)
Theorem X19_double_precision_guard_is_the_exact_comparison
        (args : Args.t) (lines : Z)
        (Hrange : -10000 <= Args.lines args <= 10000) :
  above_floor_double args lines = (Args.lines args <? 10 * lines).
Proof. apply above_floor_double_agrees. exact Hrange. Qed.

Lemma X19_witness :
  above_floor_double (Args.mk "db1" "out" None 1005 10) 101 = true
  /\ above_floor_double (Args.mk "db1" "out" None 1005 10) 100 = false.
Proof.
  split.
  - exact (X19_double_precision_guard_is_the_exact_comparison
             (Args.mk "db1" "out" None 1005 10) 101
             (conj (proj1 (Z.leb_le (-10000) 1005) eq_refl)
                   (proj1 (Z.leb_le 1005 10000) eq_refl))).
  - exact (X19_double_precision_guard_is_the_exact_comparison
             (Args.mk "db1" "out" None 1005 10) 100
             (conj (proj1 (Z.leb_le (-10000) 1005) eq_refl)
                   (proj1 (Z.leb_le 1005 10000) eq_refl))).
Defined.

(** ** The paths a run hands to the operating system *)


Section Paths.

Variable args : Args.t.







End Paths.

